(** * AddressForm: a shallow embedding of [src/components/AddressForm.tsx]

    The component keeps its fields in React state hooks, formats the
    national identifier (RUT) on every keystroke, and on submission talks
    to three collaborators: the auth provider, the persistence API and the
    toast service.  Calls to the collaborators are recorded, with their
    answers, in a chronological trace; the hooks are the state threaded
    through a small completion monad (normal / early return / throw) that
    mirrors [try ... catch ... finally]. *)

From Stdlib Require Import String Ascii List Bool Arith Lia.
Import ListNotations.
Open Scope string_scope.
Open Scope list_scope.

(** ** JavaScript values and errors *)

Record JsError := mkJsError { name : string; message : string }.

(** [new Error(msg)] *)
Definition Error (msg : string) : JsError := mkJsError "Error" msg.

(** What the engine throws when an identifier has no binding. *)
Definition ReferenceError (x : string) : JsError :=
  mkJsError "ReferenceError" (x ++ " is not defined").

Inductive jsval :=
| VUndefined
| VBool (b : bool)
| VStr (s : string)
| VRef (what : string).   (* functions, objects, components: opaque here *)

(** [s || d] on an optional string: [undefined] and [""] are both falsy. *)
Definition or_str (o : option string) (d : string) : string :=
  match o with
  | Some s => if (s =? "") then d else s
  | None => d
  end.

Definition truthy_str (s : string) : bool := negb (s =? "").

(** ** The imported module [@/lib/format-rut]

    Its two functions are used by the component but their code is not part
    of the component's file: the component is verified against any
    implementation of this interface. *)
Class FormatRut := {
  formatRUT : string -> string;
  isValidRUT : string -> bool
}.

(** ** Data model *)

Inductive Category := casa | trabajo | vecino | amigo | familiares | conserje | otro.

(** The [categories] table: value and display label, in source order. *)
Definition categories : list (Category * string) :=
  [ (casa, "Casa"); (trabajo, "Trabajo"); (vecino, "Vecino"); (amigo, "Amigo");
    (familiares, "Familiares"); (conserje, "Conserje"); (otro, "Otro") ].

(** The [countries] table: ISO code and name. *)
Definition countries : list (string * string) :=
  [ ("CL", "Chile"); ("AR", "Argentina"); ("PE", "Perú"); ("BR", "Brasil");
    ("CO", "Colombia"); ("MX", "México"); ("US", "Estados Unidos"); ("ES", "España") ].

(** The optional [initialData] prop. *)
Module InitialData.
Record t := mk {
  id : string;
  label : string;
  street : string;
  city : string;
  state : string;
  zip_code : string;
  country : string;
  is_default : bool;
  category : Category;
  email : option string;
  phone : option string;
  identification : option string;
  full_name : option string
}.
End InitialData.

(** The object literal [addressData] handed to the persistence API.  The
    [state] property holds whatever the conditional expression evaluates
    to, hence a raw JavaScript value. *)
Module AddressData.
Record t := mk {
  label : string;
  street : string;
  city : string;
  state : jsval;
  zip_code : string;
  country : string;
  is_default : bool;
  user_id : string;
  category : Category;
  email : string;
  phone : string;
  identification : string;
  full_name : string
}.
End AddressData.

(** The component's state hooks, in declaration order. *)
Module Form.
Record t := mk {
  loading : bool;
  fullName : string;
  identification : string;
  email : string;
  phone : string;
  country : string;
  region : string;
  city : string;
  zipCode : string;
  street : string;
  label : string;
  isDefault : bool;
  category : Category;
  selectedCategory : Category
}.

Definition setLoading (b : bool) (f : t) : t :=
  mk b (fullName f) (identification f) (email f) (phone f) (country f) (region f)
     (city f) (zipCode f) (street f) (label f) (isDefault f) (category f) (selectedCategory f).
Definition setFullName (v : string) (f : t) : t :=
  mk (loading f) v (identification f) (email f) (phone f) (country f) (region f)
     (city f) (zipCode f) (street f) (label f) (isDefault f) (category f) (selectedCategory f).
Definition setIdentification (v : string) (f : t) : t :=
  mk (loading f) (fullName f) v (email f) (phone f) (country f) (region f)
     (city f) (zipCode f) (street f) (label f) (isDefault f) (category f) (selectedCategory f).
Definition setEmail (v : string) (f : t) : t :=
  mk (loading f) (fullName f) (identification f) v (phone f) (country f) (region f)
     (city f) (zipCode f) (street f) (label f) (isDefault f) (category f) (selectedCategory f).
Definition setPhone (v : string) (f : t) : t :=
  mk (loading f) (fullName f) (identification f) (email f) v (country f) (region f)
     (city f) (zipCode f) (street f) (label f) (isDefault f) (category f) (selectedCategory f).
Definition setCountry (v : string) (f : t) : t :=
  mk (loading f) (fullName f) (identification f) (email f) (phone f) v (region f)
     (city f) (zipCode f) (street f) (label f) (isDefault f) (category f) (selectedCategory f).
Definition setRegion (v : string) (f : t) : t :=
  mk (loading f) (fullName f) (identification f) (email f) (phone f) (country f) v
     (city f) (zipCode f) (street f) (label f) (isDefault f) (category f) (selectedCategory f).
Definition setCity (v : string) (f : t) : t :=
  mk (loading f) (fullName f) (identification f) (email f) (phone f) (country f) (region f)
     v (zipCode f) (street f) (label f) (isDefault f) (category f) (selectedCategory f).
Definition setZipCode (v : string) (f : t) : t :=
  mk (loading f) (fullName f) (identification f) (email f) (phone f) (country f) (region f)
     (city f) v (street f) (label f) (isDefault f) (category f) (selectedCategory f).
Definition setStreet (v : string) (f : t) : t :=
  mk (loading f) (fullName f) (identification f) (email f) (phone f) (country f) (region f)
     (city f) (zipCode f) v (label f) (isDefault f) (category f) (selectedCategory f).
Definition setLabel (v : string) (f : t) : t :=
  mk (loading f) (fullName f) (identification f) (email f) (phone f) (country f) (region f)
     (city f) (zipCode f) (street f) v (isDefault f) (category f) (selectedCategory f).
Definition setIsDefault (v : bool) (f : t) : t :=
  mk (loading f) (fullName f) (identification f) (email f) (phone f) (country f) (region f)
     (city f) (zipCode f) (street f) (label f) v (category f) (selectedCategory f).
Definition setCategory (v : Category) (f : t) : t :=
  mk (loading f) (fullName f) (identification f) (email f) (phone f) (country f) (region f)
     (city f) (zipCode f) (street f) (label f) (isDefault f) v (selectedCategory f).
Definition setSelectedCategory (v : Category) (f : t) : t :=
  mk (loading f) (fullName f) (identification f) (email f) (phone f) (country f) (region f)
     (city f) (zipCode f) (street f) (label f) (isDefault f) (category f) v.
End Form.

(** The session's user as the auth provider returns it. *)
Module User.
Record t := mk { id : string }.
End User.

(** The component's props; [onSuccess] is a callback of the caller and
    shows up as an event when it is invoked. *)
Record Props := mkProps { initialData : option InitialData.t }.

(** Optional chaining on the prop: [initialData?.x] for a required and for
    an optional property [x]. *)
Definition chain {A} (i : option InitialData.t) (x : InitialData.t -> A) : option A :=
  option_map x i.

Definition chain_optional {A} (i : option InitialData.t) (x : InitialData.t -> option A)
  : option A :=
  match i with
  | Some d => x d
  | None => None
  end.

(** [useState] initial values (lines 61-74). *)
Definition mount (p : Props) : Form.t :=
  let i := initialData p in
  let category :=
    match chain i InitialData.category with Some c => c | None => otro end in
  Form.mk
    false
    (or_str (chain_optional i InitialData.full_name) "")
    (or_str (chain_optional i InitialData.identification) "")
    (or_str (chain_optional i InitialData.email) "")
    (or_str (chain_optional i InitialData.phone) "")
    (or_str (chain i InitialData.country) "CL")
    (or_str (chain i InitialData.state) "")
    (or_str (chain i InitialData.city) "")
    (or_str (chain i InitialData.zip_code) "")
    (or_str (chain i InitialData.street) "")
    (or_str (chain i InitialData.label) "")
    (match chain i InitialData.is_default with Some b => b | None => false end)
    category
    category.

(** ** Collaborators: calls, answers and the trace *)

Record ToastArgs := mkToast {
  title : string;
  description : string;
  variant : option string
}.

Inductive Event :=
| PreventDefault
| AuthGetUser (user : option User.t)
| Toast (t : ToastArgs)
| Insert (table : string) (rows : list AddressData.t) (error : option JsError)
| Update (table : string) (patch : AddressData.t) (column value : string)
         (error : option JsError)
| OnSuccess.

(** How the outside world answers during one submission: the session
    lookup, the two persistence calls, and the caller's [onSuccess]
    callback, which either returns or throws. *)
Record World := mkWorld {
  auth_user : option User.t;
  insert_error : string -> list AddressData.t -> option JsError;
  update_error : string -> AddressData.t -> string -> string -> option JsError;
  onSuccess_throws : option JsError
}.

(** ** Completion monad over the live hooks and the trace *)

Inductive Completion (A : Type) :=
| Normal (a : A)
| Returned
| Thrown (e : JsError).
Arguments Normal {A} a.
Arguments Returned {A}.
Arguments Thrown {A} e.

Record Store := mkStore { hooks : Form.t; trace : list Event }.

Definition M (A : Type) : Type := Store -> Completion A * Store.

Definition ret {A} (a : A) : M A := fun s => (Normal a, s).

Definition bind {A B} (m : M A) (k : A -> M B) : M B :=
  fun s =>
    match m s with
    | (Normal a, s') => k a s'
    | (Returned, s') => (Returned, s')
    | (Thrown e, s') => (Thrown e, s')
    end.

Declare Scope js_scope.
Delimit Scope js_scope with js.
Notation "x <- m ;; k" := (bind m (fun x => k))
  (at level 61, m at next level, right associativity) : js_scope.
Notation "m ;; k" := (bind m (fun _ => k))
  (at level 61, right associativity) : js_scope.
Open Scope js_scope.

Definition throw {A} (e : JsError) : M A := fun s => (Thrown e, s).
Definition return_ {A} : M A := fun s => (Returned, s).

Definition emit (ev : Event) : M unit :=
  fun s => (Normal tt, mkStore (hooks s) (trace s ++ [ev])).

Definition update_hooks (g : Form.t -> Form.t) : M unit :=
  fun s => (Normal tt, mkStore (g (hooks s)) (trace s)).

Definition lift {A} (r : JsError + A) : M A :=
  match r with inl e => throw e | inr a => ret a end.

(** [try { body } catch (error) { handler(error) } finally { fin }]: an
    early return or a normal end of [body] skips the handler; [fin] runs on
    every path and its own abrupt completion, if any, wins. *)
Definition try_catch_finally (body : M unit) (handler : JsError -> M unit)
    (fin : M unit) : M unit :=
  fun s =>
    let '(c1, s1) := body s in
    let '(c2, s2) :=
      match c1 with
      | Thrown e => handler e s1
      | _ => (c1, s1)
      end in
    let '(c3, s3) := fin s2 in
    match c3 with
    | Normal _ => (c2, s3)
    | _ => (c3, s3)
    end.

(** The collaborators as monadic calls. *)
Definition setLoading (b : bool) : M unit := update_hooks (Form.setLoading b).
Definition toast (t : ToastArgs) : M unit := emit (Toast t).
Definition onSuccess (w : World) : M unit :=
  emit OnSuccess ;;
  match onSuccess_throws w with
  | Some e => throw e
  | None => ret tt
  end.
Definition preventDefault : M unit := emit PreventDefault.

Definition supabase_auth_getUser (w : World) : M (option User.t) :=
  emit (AuthGetUser (auth_user w)) ;; ret (auth_user w).

Definition supabase_insert (w : World) (table : string) (rows : list AddressData.t)
  : M (option JsError) :=
  let error := insert_error w table rows in
  emit (Insert table rows error) ;; ret error.

Definition supabase_update (w : World) (table : string) (patch : AddressData.t)
    (column value : string) : M (option JsError) :=
  let error := update_error w table patch column value in
  emit (Update table patch column value error) ;; ret error.

(** ** Identifier resolution

    The bindings visible inside [handleSubmit] at the point where the
    [addressData] literal is evaluated, innermost first: the handler's own
    locals, the component's props, hooks and handlers, the module's
    constants and its imports.  An identifier found in none of them (and
    which is not a property of the browser's global object) makes the
    engine throw a ReferenceError when it is read. *)
Definition Scope := list (string * jsval).

Fixpoint lookup (x : string) (sc : Scope) : option jsval :=
  match sc with
  | [] => None
  | (y, v) :: rest => if (x =? y) then Some v else lookup x rest
  end.

Definition ident (sc : Scope) (x : string) : JsError + jsval :=
  match lookup x sc with
  | Some v => inr v
  | None => inl (ReferenceError x)
  end.

Definition scope (f : Form.t) : Scope :=
  [ (* handleSubmit *)
    ("e", VRef "event"); ("user", VRef "user");
    (* AddressForm *)
    ("onSuccess", VRef "function"); ("initialData", VRef "props");
    ("toast", VRef "function");
    ("loading", VBool (Form.loading f)); ("setLoading", VRef "function");
    ("fullName", VStr (Form.fullName f)); ("setFullName", VRef "function");
    ("identification", VStr (Form.identification f)); ("setIdentification", VRef "function");
    ("email", VStr (Form.email f)); ("setEmail", VRef "function");
    ("phone", VStr (Form.phone f)); ("setPhone", VRef "function");
    ("country", VStr (Form.country f)); ("setCountry", VRef "function");
    ("region", VStr (Form.region f)); ("setRegion", VRef "function");
    ("city", VStr (Form.city f)); ("setCity", VRef "function");
    ("zipCode", VStr (Form.zipCode f)); ("setZipCode", VRef "function");
    ("street", VStr (Form.street f)); ("setStreet", VRef "function");
    ("label", VStr (Form.label f)); ("setLabel", VRef "function");
    ("isDefault", VBool (Form.isDefault f)); ("setIsDefault", VRef "function");
    ("category", VRef "category"); ("setCategory", VRef "function");
    ("selectedCategory", VRef "category"); ("setSelectedCategory", VRef "function");
    ("handleIdentificationChange", VRef "function"); ("handleSubmit", VRef "function");
    (* module constants *)
    ("categories", VRef "array"); ("countries", VRef "array");
    ("AddressForm", VRef "function");
    (* imports *)
    ("useState", VRef "function"); ("useEffect", VRef "function");
    ("useToast", VRef "function"); ("supabase", VRef "client");
    ("Button", VRef "component"); ("Input", VRef "component");
    ("Card", VRef "component"); ("CardContent", VRef "component");
    ("CardHeader", VRef "component"); ("CardTitle", VRef "component");
    ("Select", VRef "component"); ("SelectContent", VRef "component");
    ("SelectItem", VRef "component"); ("SelectTrigger", VRef "component");
    ("SelectValue", VRef "component");
    ("Home", VRef "component"); ("Briefcase", VRef "component");
    ("MapPin", VRef "component"); ("User", VRef "component");
    ("Users", VRef "component"); ("Building2", VRef "component");
    ("formatRUT", VRef "function"); ("isValidRUT", VRef "function");
    ("chileRegions", VRef "array") ].

(** ** The change handler of the identification input (lines 76-79) *)

(** The character class [0-9kK-] of the regular expression.  Every
    character it admits is ASCII, so filtering the string byte by byte
    keeps exactly what filtering by UTF-16 code unit keeps. *)
Definition rut_input_char (c : ascii) : bool :=
  let n := nat_of_ascii c in
  ((48 <=? n)%nat && (n <=? 57)%nat) || (n =? 107)%nat || (n =? 75)%nat || (n =? 45)%nat.

Fixpoint keep (p : ascii -> bool) (s : string) : string :=
  match s with
  | EmptyString => EmptyString
  | String c rest => if p c then String c (keep p rest) else keep p rest
  end.

(** [e.target.value.replace(/[^0-9kK-]/g, '')] *)
Definition strip_rut_input (raw : string) : string := keep rut_input_char raw.

Definition handleIdentificationChange `{FormatRut} (raw : string) (f : Form.t) : Form.t :=
  let value := strip_rut_input raw in
  Form.setIdentification (formatRUT value) f.

(** ** Submission (lines 81-147)

    [handleSubmit] is a closure: it reads the field values of the render
    it was created in ([f]) and writes, through [setLoading], to the live
    hooks held in the store. *)

(** The [addressData] object literal (lines 98-112). *)
Definition addressData (f : Form.t) (user : User.t) : JsError + AddressData.t :=
  let state_value :=
    if (Form.country f =? "CL") then inr (VStr (Form.region f))
    else ident (scope f) "state" in
  match state_value with
  | inl e => inl e
  | inr st =>
      inr (AddressData.mk
             (Form.label f) (Form.street f) (Form.city f)
             st
             (Form.zipCode f) (Form.country f) (Form.isDefault f)
             (User.id user)
             (Form.category f) (Form.email f) (Form.phone f)
             (Form.identification f) (Form.fullName f))
  end.

Definition invalid_rut_toast : ToastArgs :=
  mkToast "Error" "El RUT ingresado no es válido" (Some "destructive").
Definition updated_toast : ToastArgs :=
  mkToast "¡Dirección actualizada!" "La dirección se ha actualizado correctamente." None.
Definition saved_toast : ToastArgs :=
  mkToast "¡Dirección guardada!" "La dirección se ha guardado correctamente." None.
Definition error_toast (error : JsError) : ToastArgs :=
  mkToast "Error" (message error) (Some "destructive").

(** The [try] block (lines 86-137). *)
Definition handleSubmit_try `{FormatRut} (p : Props) (f : Form.t) (w : World) : M unit :=
  user <- supabase_auth_getUser w ;;
  match user with
  | None => throw (Error "No se encontró usuario")
  | Some user =>
      if truthy_str (Form.identification f) && negb (isValidRUT (Form.identification f))
      then toast invalid_rut_toast ;; return_
      else
        data <- lift (addressData f user) ;;
        match initialData p with
        | Some init =>
            error <- supabase_update w "addresses" data "id" (InitialData.id init) ;;
            match error with
            | Some err => throw err
            | None => toast updated_toast
            end
        | None =>
            error <- supabase_insert w "addresses" [data] ;;
            match error with
            | Some err => throw err
            | None => toast saved_toast
            end
        end ;;
        onSuccess w
  end.

Definition handleSubmit_catch (error : JsError) : M unit := toast (error_toast error).
Definition handleSubmit_finally : M unit := setLoading false.

(** What runs synchronously when the submit event is dispatched, up to the
    first [await]. *)
Definition handleSubmit_sync : M unit := preventDefault ;; setLoading true.

(** What runs once the awaited answers arrive. *)
Definition handleSubmit_async `{FormatRut} (p : Props) (f : Form.t) (w : World) : M unit :=
  try_catch_finally (handleSubmit_try p f w) handleSubmit_catch handleSubmit_finally.

Definition handleSubmit `{FormatRut} (p : Props) (f : Form.t) (w : World) : M unit :=
  handleSubmit_sync ;; handleSubmit_async p f w.

(** One submission started from a quiescent component whose hooks are [f]:
    the closure and the live hooks agree and the trace starts empty. *)
Definition submit `{FormatRut} (p : Props) (f : Form.t) (w : World) : Completion unit * Store :=
  handleSubmit p f w (mkStore f []).

(** How the [try] block of that submission completed. *)
Definition submit_try `{FormatRut} (p : Props) (f : Form.t) (w : World) : Completion unit :=
  fst (handleSubmit_try p f w (mkStore (Form.setLoading true f) [PreventDefault])).

Definition succeeds `{FormatRut} (p : Props) (f : Form.t) (w : World) : Prop :=
  submit_try p f w = Normal tt.

(** ** What the render shows (lines 222-243 and 289-293) *)

Record SubmitButton := mkButton { disabled : bool; caption : string }.

Definition submit_button (p : Props) (f : Form.t) : SubmitButton :=
  mkButton (Form.loading f)
    (if Form.loading f then "Guardando..."
     else match initialData p with Some _ => "Actualizar" | None => "Guardar" end).

Inductive RegionControl :=
| RegionSelect (value : string)
| StateInput (value : jsval).

Definition region_control (f : Form.t) : JsError + RegionControl :=
  if (Form.country f =? "CL") then inr (RegionSelect (Form.region f))
  else match ident (scope f) "state" with
       | inl e => inl e
       | inr v => inr (StateInput v)
       end.

(** ** The mounted component as a machine

    The user edits fields and presses the submit control; the browser only
    dispatches the submit event while the control is enabled.  A dispatched
    submission runs its synchronous prefix at once and stays in flight,
    holding the field values of its render, until its answers arrive. *)
Record Component := mkComponent {
  live : Form.t;
  in_flight : list Form.t;
  log : list Event
}.

Inductive Input :=
| ClickCategory (c : Category)
| ChangeFullName (v : string)
| ChangeIdentification (raw : string)
| ChangeEmail (v : string)
| ChangePhone (v : string)
| SelectCountry (v : string)
| SelectRegion (v : string)
| ChangeCity (v : string)
| ChangeStreet (v : string)
| ChangeZipCode (v : string)
| ChangeLabel (v : string)
| ChangeIsDefault (v : bool)
| PressSubmit
| Answers (w : World).

Definition edit (g : Form.t -> Form.t) (c : Component) : Component :=
  mkComponent (g (live c)) (in_flight c) (log c).

Definition start (p : Props) : Component :=
  mkComponent (mount p) [] [].

Definition react `{FormatRut} (p : Props) (i : Input) (c : Component) : Component :=
  match i with
  | ClickCategory v =>
      edit (fun f => Form.setCategory v (Form.setSelectedCategory v f)) c
  | ChangeFullName v => edit (Form.setFullName v) c
  | ChangeIdentification raw => edit (handleIdentificationChange raw) c
  | ChangeEmail v => edit (Form.setEmail v) c
  | ChangePhone v => edit (Form.setPhone v) c
  | SelectCountry v => edit (Form.setCountry v) c
  | SelectRegion v => edit (Form.setRegion v) c
  | ChangeCity v => edit (Form.setCity v) c
  | ChangeStreet v => edit (Form.setStreet v) c
  | ChangeZipCode v => edit (Form.setZipCode v) c
  | ChangeLabel v => edit (Form.setLabel v) c
  | ChangeIsDefault v => edit (Form.setIsDefault v) c
  | PressSubmit =>
      if disabled (submit_button p (live c)) then c
      else
        let s := snd (handleSubmit_sync (mkStore (live c) (log c))) in
        mkComponent (hooks s) (in_flight c ++ [live c]) (trace s)
  | Answers w =>
      match in_flight c with
      | [] => c
      | f :: rest =>
          let s := snd (handleSubmit_async p f w (mkStore (live c) (log c))) in
          mkComponent (hooks s) rest (trace s)
      end
  end.

Definition run `{FormatRut} (p : Props) (inputs : list Input) : Component :=
  fold_left (fun c i => react p i c) inputs (start p).

(** The two observable states. *)
Inductive Phase := editing | submitting.

Definition phase (f : Form.t) : Phase :=
  if Form.loading f then submitting else editing.

(** ** The identifier helpers, from their specification

    The code of [formatRUT] and [isValidRUT] lives in [@/lib/format-rut],
    outside the component's file; the definitions below follow the written
    description of the Identifier Formatter and the Identifier Validator. *)
Module RutSpec.

Definition is_digit (c : ascii) : bool :=
  let n := nat_of_ascii c in (48 <=? n)%nat && (n <=? 57)%nat.

Definition is_k (c : ascii) : bool := (c =? "k")%char || (c =? "K")%char.

(** The characters an identifier is made of. *)
Definition rut_char (c : ascii) : bool := is_digit c || is_k c.

Fixpoint all_chars (p : ascii -> bool) (s : string) : bool :=
  match s with
  | EmptyString => true
  | String c rest => p c && all_chars p rest
  end.

(** One hyphen immediately before the final character. *)
Fixpoint hyphenate (s : string) : string :=
  match s with
  | EmptyString => EmptyString
  | String c rest =>
      match rest with
      | EmptyString => String "-" (String c EmptyString)
      | String _ _ => String c (hyphenate rest)
      end
  end.

(** Modelled from the spec: the Identifier Formatter ([formatRUT] of
    [@/lib/format-rut], not in the component's file).  "The same content
    with exactly one hyphen inserted immediately before the final check
    character, all other non-digit/non-k characters stripped"; "empty
    input yields empty output". *)
Definition formatRUT (x : string) : string := hyphenate (keep rut_char x).

Definition digit_value (c : ascii) : nat := nat_of_ascii c - 48.

(** The digits of the body, least significant first. *)
Definition digits_lsf (body : string) : list nat :=
  rev (map digit_value (list_ascii_of_string body)).

(** Weights cycle 2, 3, 4, 5, 6, 7, 2, ... *)
Definition next_weight (w : nat) : nat := if (w =? 7)%nat then 2 else S w.

Fixpoint weighted_sum (w : nat) (ds : list nat) : nat :=
  match ds with
  | [] => 0
  | d :: rest => d * w + weighted_sum (next_weight w) rest
  end.

(** The value the mapping below is applied to: 11 minus the remainder of
    the weighted sum, the reading of "modulo 11" under which each of the
    three cases of the mapping occurs (it ranges over 1..11). *)
Definition checksum (body : string) : nat :=
  11 - weighted_sum 2 (digits_lsf body) mod 11.

(** "mapping remainder 11 -> '0', 10 -> 'K', else the digit itself" *)
Definition check_char (r : nat) : ascii :=
  if (r =? 11)%nat then "0"%char
  else if (r =? 10)%nat then "K"%char
  else ascii_of_nat (48 + r).

Definition upper (c : ascii) : ascii :=
  let n := nat_of_ascii c in
  if (97 <=? n)%nat && (n <=? 122)%nat then ascii_of_nat (n - 32) else c.

(** A formatted identifier is a body, a hyphen and one check character. *)
Fixpoint split_check (s : string) : option (string * ascii) :=
  match s with
  | EmptyString => None
  | String c rest =>
      match (c =? "-")%char, rest with
      | true, String k EmptyString => Some (EmptyString, k)
      | _, _ =>
          match split_check rest with
          | Some (body, k) => Some (String c body, k)
          | None => None
          end
      end
  end.

(** Modelled from the spec: the Identifier Validator ([isValidRUT] of
    [@/lib/format-rut], not in the component's file).  "Input: a
    formatted identifier string.  Computes a weighted-sum checksum over
    the digits (weights cycling 2..7 from least significant digit) modulo
    11, mapping remainder 11 -> '0', 10 -> 'K', else the digit itself, and
    compares case-insensitively to the supplied check character.  Returns
    a boolean; never throws.  Empty or malformed input is treated as
    invalid (false)". *)
Definition isValidRUT (x : string) : bool :=
  match split_check x with
  | Some (body, k) =>
      all_chars is_digit body
      && (upper (check_char (checksum body)) =? upper k)%char
  | None => false
  end.

(** The weight of the digit at position [i], counted from the least
    significant one. *)
Definition weight_at (i : nat) : nat := 2 + i mod 6.

Fixpoint positional_sum (i : nat) (ds : list nat) : nat :=
  match ds with
  | [] => 0
  | d :: rest => d * weight_at i + positional_sum (S i) rest
  end.

End RutSpec.

(** The specified helpers packaged as an implementation of the imported
    module. *)
Definition spec_format_rut : FormatRut :=
  {| formatRUT := RutSpec.formatRUT; isValidRUT := RutSpec.isValidRUT |}.

(** ** Reading a trace *)

Definition is_insert (ev : Event) : bool :=
  match ev with Insert _ _ _ => true | _ => false end.
Definition is_update (ev : Event) : bool :=
  match ev with Update _ _ _ _ _ => true | _ => false end.
Definition is_onSuccess (ev : Event) : bool :=
  match ev with OnSuccess => true | _ => false end.

Definition count (p : Event -> bool) (tr : list Event) : nat :=
  length (filter p tr).

(** The [error] a persistence call answered with, if the event is one. *)
Definition call_error (ev : Event) : option JsError :=
  match ev with
  | Insert _ _ error => error
  | Update _ _ _ _ error => error
  | _ => None
  end.

(** Some persistence call of the trace failed with [err]. *)
Definition persistence_failed (err : JsError) (tr : list Event) : Prop :=
  exists ev, In ev tr /\ call_error ev = Some err.

(** The guard of line 89: an identifier is present and the validator
    rejects it. *)
Definition identifier_rejected `{FormatRut} (f : Form.t) : bool :=
  truthy_str (Form.identification f) && negb (isValidRUT (Form.identification f)).

Definition unauthenticated : JsError := Error "No se encontró usuario".

(** The component is quiescent, or exactly one submission is in flight
    and the [loading] flag is up. *)
Definition single_flight (c : Component) : Prop :=
  (Form.loading (live c) = false /\ in_flight c = []) \/
  (Form.loading (live c) = true /\ exists f, in_flight c = [f]).

(** The thirteen characters the identification input lets through. *)
Definition rut_input_alphabet : list ascii :=
  [ "0"; "1"; "2"; "3"; "4"; "5"; "6"; "7"; "8"; "9"; "k"; "K"; "-" ]%char.

(** ** Sample inputs *)
Module Sample.

Definition form : Form.t :=
  Form.mk false "Ana Soto" "" "ana@example.com" "+56 9 1234 5678" "CL"
    "Metropolitana" "Santiago" "7500000" "Av. Providencia 1234" "Casa" true casa casa.

Definition abroad : Form.t := Form.setCountry "AR" form.

(** The body 12345678 with a check character that no reading of the
    checksum produces. *)
Definition bad_rut : Form.t := Form.setIdentification "12345678-9" form.

Definition user : User.t := User.mk "user-1".

Definition stored : InitialData.t :=
  InitialData.mk "addr-7" "Casa" "Av. Providencia 1234" "Santiago" "Metropolitana"
    "7500000" "CL" true casa (Some "ana@example.com") None None (Some "Ana Soto").

Definition create : Props := mkProps None.
Definition edit : Props := mkProps (Some stored).

Definition online : World :=
  mkWorld (Some user) (fun _ _ => None) (fun _ _ _ _ => None) None.

Definition anonymous : World :=
  mkWorld None (fun _ _ => None) (fun _ _ _ _ => None) None.

Definition conflict : JsError := mkJsError "PostgrestError" "duplicate key value".

Definition failing : World :=
  mkWorld (Some user) (fun _ _ => Some conflict) (fun _ _ _ _ => Some conflict) None.

End Sample.

(** ** The category buttons (lines 158-177) *)

Definition Category_eqb (a b : Category) : bool :=
  match a, b with
  | casa, casa | trabajo, trabajo | vecino, vecino | amigo, amigo
  | familiares, familiares | conserje, conserje | otro, otro => true
  | _, _ => false
  end.

Record CategoryButton := mkCategoryButton {
  key : Category;
  button_variant : string;
  text : string
}.

(** One button per entry of [categories]; the one whose value is the
    [selectedCategory] hook is drawn in the default variant. *)
Definition category_buttons (f : Form.t) : list CategoryButton :=
  map (fun cat =>
         mkCategoryButton (fst cat)
           (if Category_eqb (Form.selectedCategory f) (fst cat) then "default" else "outline")
           (snd cat))
      categories.

Definition highlighted (b : CategoryButton) : bool := (button_variant b =? "default").

(** ** More readers of a trace *)

Definition is_toast (ev : Event) : bool :=
  match ev with Toast _ => true | _ => false end.
Definition is_getUser (ev : Event) : bool :=
  match ev with AuthGetUser _ => true | _ => false end.
Definition is_preventDefault (ev : Event) : bool :=
  match ev with PreventDefault => true | _ => false end.
Definition is_persistence (ev : Event) : bool := is_insert ev || is_update ev.

(** The records a persistence call carries. *)
Definition written (ev : Event) : list AddressData.t :=
  match ev with
  | Insert _ rows _ => rows
  | Update _ patch _ _ _ => [patch]
  | _ => []
  end.

(** What the asynchronous part of a submission created in the render [f]
    adds to the trace. *)
Definition submission_events `{FormatRut} (p : Props) (f : Form.t) (w : World) : list Event :=
  trace (snd (handleSubmit_async p f w (mkStore f []))).

(** The persistence call a submission makes once its record is built:
    an update matched on the original id in edit mode, an insert of the
    one record in create mode (lines 114-135). *)
Definition persistence_call (p : Props) (w : World) (data : AddressData.t) : Event :=
  match initialData p with
  | Some init =>
      Update "addresses" data "id" (InitialData.id init)
        (update_error w "addresses" data "id" (InitialData.id init))
  | None => Insert "addresses" [data] (insert_error w "addresses" [data])
  end.

Definition success_toast (p : Props) : ToastArgs :=
  match initialData p with
  | Some _ => updated_toast
  | None => saved_toast
  end.

(** ** More of the machine *)

(** The inputs that edit a field, as opposed to pressing submit or the
    arrival of answers. *)
Definition is_edit (i : Input) : bool :=
  match i with
  | PressSubmit | Answers _ => false
  | _ => true
  end.

(** The component after further inputs. *)
Definition continue `{FormatRut} (p : Props) (inputs : list Input) (c : Component) : Component :=
  fold_left (fun c i => react p i c) inputs c.

(** ** Rendering and dispatch

    The handlers of a render reach the user only if the render returns.
    A render whose region branch throws unmounts the component, which
    from then on receives no input; and the browser does not fire the
    submit event while an input marked [required] (lines 184, 250, 258,
    273) is empty. *)
Definition renders (f : Form.t) : bool :=
  match region_control f with
  | inr _ => true
  | inl _ => false
  end.

Definition required_filled (f : Form.t) : bool :=
  truthy_str (Form.fullName f) && truthy_str (Form.city f)
  && truthy_str (Form.street f) && truthy_str (Form.label f).

(** The component after a render of its hooks: [None] once a render threw. *)
Definition rendered (c : Component) : option Component :=
  if renders (live c) then Some c else None.

Definition react_rendered `{FormatRut} (p : Props) (i : Input) (m : option Component)
  : option Component :=
  match m with
  | None => None
  | Some c =>
      match i with
      | PressSubmit =>
          if required_filled (live c) then rendered (react p i c) else Some c
      | _ => rendered (react p i c)
      end
  end.

Definition run_rendered `{FormatRut} (p : Props) (inputs : list Input) : option Component :=
  fold_left (fun m i => react_rendered p i m) inputs (rendered (start p)).

(** ** Further sample inputs *)
Module Scenario.

(** A user filling in the blank form. *)
Definition filling : list Input :=
  [ ClickCategory casa; ChangeFullName "Ana Soto"; ChangeIdentification "12.345.678-5";
    ChangeEmail "ana@example.com"; SelectRegion "Metropolitana"; ChangeCity "Santiago";
    ChangeStreet "Av. Providencia 1234"; ChangeLabel "Casa"; ChangeIsDefault true ].

(** A stored address whose optional contact fields are partly absent. *)
Definition stored : InitialData.t :=
  InitialData.mk "addr-9" "Oficina" "Av. Apoquindo 4501" "Las Condes" "Metropolitana"
    "7550000" "CL" false trabajo None (Some "+56 2 2345 6789") None (Some "Luis Rojas").

Definition edit : Props := mkProps (Some stored).

Definition user : User.t := User.mk "user-2".

(** A signed-in session and a backend that accepts every write. *)
Definition online : World :=
  mkWorld (Some user) (fun _ _ => None) (fun _ _ _ _ => None) None.

Definition typing : list Input :=
  [ ChangeLabel "Casa de verano"; ChangeCity "Valparaíso"; ClickCategory familiares ].

End Scenario.

(** * Properties *)

(** ** Identifier resolution and the record literal *)

Lemma state_unbound (f : Form.t) : lookup "state" (scope f) = None.
Proof. reflexivity. Qed.

Lemma region_bound (f : Form.t) : lookup "region" (scope f) = Some (VStr (Form.region f)).
Proof. reflexivity. Qed.

Lemma addressData_CL (f : Form.t) (user : User.t) :
  Form.country f = "CL" ->
  addressData f user =
    inr (AddressData.mk (Form.label f) (Form.street f) (Form.city f)
           (VStr (Form.region f)) (Form.zipCode f) (Form.country f)
           (Form.isDefault f) (User.id user) (Form.category f) (Form.email f)
           (Form.phone f) (Form.identification f) (Form.fullName f)).
Proof.
  intros HCL. unfold addressData. rewrite HCL. reflexivity.
Qed.

Lemma addressData_other (f : Form.t) (user : User.t) :
  Form.country f <> "CL" ->
  addressData f user = inl (ReferenceError "state").
Proof.
  intros Hne. unfold addressData, ident.
  destruct (String.eqb_spec (Form.country f) "CL") as [E | _]; [contradiction |].
  rewrite state_unbound. reflexivity.
Qed.

Lemma addressData_inr (f : Form.t) (user : User.t) (data : AddressData.t) :
  addressData f user = inr data -> Form.country f = "CL".
Proof.
  intros Hd. destruct (String.eqb_spec (Form.country f) "CL") as [E | Hne]; [exact E |].
  rewrite (addressData_other f user Hne) in Hd. discriminate.
Qed.

(** ** The paths of one submission *)

Section Submission.
Context {lib : FormatRut}.
Variables (p : Props) (f : Form.t) (w : World).

Let idle : Form.t := Form.setLoading false f.
Let opening (user : option User.t) : list Event := [PreventDefault; AuthGetUser user].

(** No session: line 87 throws and the handler reports it. *)
Lemma submit_unauthenticated :
  auth_user w = None ->
  submit_try p f w = Thrown unauthenticated /\
  submit p f w =
    (Normal tt, mkStore idle (opening None ++ [Toast (error_toast unauthenticated)])).
Proof.
  intros Hu.
  unfold submit_try, submit, handleSubmit, handleSubmit_async, try_catch_finally,
    handleSubmit_try, supabase_auth_getUser, handleSubmit_sync.
  cbn. rewrite Hu. cbn. split; reflexivity.
Qed.

(** A rejected identifier: the validation toast, then [return]. *)
Lemma submit_rejected (user : User.t) :
  auth_user w = Some user ->
  identifier_rejected f = true ->
  submit_try p f w = Returned /\
  submit p f w =
    (Returned, mkStore idle (opening (Some user) ++ [Toast invalid_rut_toast])).
Proof.
  intros Hu Hrej. unfold identifier_rejected in Hrej.
  unfold submit_try, submit, handleSubmit, handleSubmit_async, try_catch_finally,
    handleSubmit_try, supabase_auth_getUser, handleSubmit_sync.
  cbn. rewrite Hu. cbn. rewrite Hrej. cbn. split; reflexivity.
Qed.

(** The record literal throws: nothing is sent. *)
Lemma submit_record_throws (user : User.t) (e : JsError) :
  auth_user w = Some user ->
  identifier_rejected f = false ->
  addressData f user = inl e ->
  submit_try p f w = Thrown e /\
  submit p f w =
    (Normal tt, mkStore idle (opening (Some user) ++ [Toast (error_toast e)])).
Proof.
  intros Hu Hrej Hd. unfold identifier_rejected in Hrej.
  unfold submit_try, submit, handleSubmit, handleSubmit_async, try_catch_finally,
    handleSubmit_try, supabase_auth_getUser, handleSubmit_sync.
  cbn. rewrite Hu. cbn. rewrite Hrej. cbn. unfold bind, lift.
  rewrite Hd. cbn. split; reflexivity.
Qed.

(** After a persistence call that answered without an error: the success
    toast, then the callback, whose throw is caught like any other. *)
Let closing (success : ToastArgs) : Completion unit * list Event :=
  match onSuccess_throws w with
  | None => (Normal tt, [Toast success; OnSuccess])
  | Some e => (Thrown e, [Toast success; OnSuccess; Toast (error_toast e)])
  end.

(** Create mode, the record is built and [insert] answers [error]. *)
Lemma submit_create (user : User.t) (data : AddressData.t) :
  auth_user w = Some user ->
  identifier_rejected f = false ->
  addressData f user = inr data ->
  initialData p = None ->
  let error := insert_error w "addresses" [data] in
  let call := Insert "addresses" [data] error in
  match error with
  | None =>
      submit_try p f w = fst (closing saved_toast) /\
      submit p f w =
        (Normal tt,
         mkStore idle (opening (Some user) ++ call :: snd (closing saved_toast)))
  | Some err =>
      submit_try p f w = Thrown err /\
      submit p f w =
        (Normal tt,
         mkStore idle (opening (Some user) ++ [call; Toast (error_toast err)]))
  end.
Proof.
  intros Hu Hrej Hd Hp error call. unfold identifier_rejected in Hrej.
  subst call. unfold closing.
  unfold submit_try, submit, handleSubmit, handleSubmit_async, try_catch_finally,
    handleSubmit_try, supabase_auth_getUser, handleSubmit_sync, onSuccess.
  cbn. rewrite Hu. cbn. rewrite Hrej. cbn. unfold bind, lift.
  rewrite Hd, Hp. cbn. fold error.
  destruct error as [err |]; cbn; [split; reflexivity |].
  destruct (onSuccess_throws w); cbn; split; reflexivity.
Qed.

(** Edit mode, the record is built and [update] answers [error]. *)
Lemma submit_edit (user : User.t) (data : AddressData.t) (init : InitialData.t) :
  auth_user w = Some user ->
  identifier_rejected f = false ->
  addressData f user = inr data ->
  initialData p = Some init ->
  let error := update_error w "addresses" data "id" (InitialData.id init) in
  let call := Update "addresses" data "id" (InitialData.id init) error in
  match error with
  | None =>
      submit_try p f w = fst (closing updated_toast) /\
      submit p f w =
        (Normal tt,
         mkStore idle (opening (Some user) ++ call :: snd (closing updated_toast)))
  | Some err =>
      submit_try p f w = Thrown err /\
      submit p f w =
        (Normal tt,
         mkStore idle (opening (Some user) ++ [call; Toast (error_toast err)]))
  end.
Proof.
  intros Hu Hrej Hd Hp error call. unfold identifier_rejected in Hrej.
  subst call. unfold closing.
  unfold submit_try, submit, handleSubmit, handleSubmit_async, try_catch_finally,
    handleSubmit_try, supabase_auth_getUser, handleSubmit_sync, onSuccess.
  cbn. rewrite Hu. cbn. rewrite Hrej. cbn. unfold bind, lift.
  rewrite Hd, Hp. cbn. fold error.
  destruct error as [err |]; cbn; [split; reflexivity |].
  destruct (onSuccess_throws w); cbn; split; reflexivity.
Qed.

End Submission.

(** Case analysis along the guards of [handleSubmit], in source order. *)
Ltac submit_paths p f w :=
  let user := fresh "user" in
  let Hu := fresh "Hu" in
  let Hrej := fresh "Hrej" in
  let Hd := fresh "Hd" in
  let Hp := fresh "Hp" in
  let Hrun := fresh "Hrun" in
  destruct (auth_user w) as [user |] eqn:Hu;
  [ destruct (identifier_rejected f) eqn:Hrej;
    [ destruct (submit_rejected p f w user Hu Hrej) as [? ?]
    | destruct (addressData f user) as [? | ?] eqn:Hd;
      [ destruct (submit_record_throws p f w user _ Hu Hrej Hd) as [? ?]
      | destruct (initialData p) as [? |] eqn:Hp;
        [ pose proof (submit_edit p f w user _ _ Hu Hrej Hd Hp) as Hrun;
          cbv zeta in Hrun
        | pose proof (submit_create p f w user _ Hu Hrej Hd Hp) as Hrun;
          cbv zeta in Hrun ] ] ]
  | destruct (submit_unauthenticated p f w Hu) as [? ?] ].

(** A submission succeeds only when every guard passes, the persistence
    call answers without an error and the callback returns. *)
Lemma succeeds_inv {lib : FormatRut} (p : Props) (f : Form.t) (w : World) :
  succeeds p f w ->
  exists user data,
    auth_user w = Some user /\
    identifier_rejected f = false /\
    addressData f user = inr data /\
    match initialData p with
    | Some init => update_error w "addresses" data "id" (InitialData.id init) = None
    | None => insert_error w "addresses" [data] = None
    end /\
    onSuccess_throws w = None.
Proof.
  unfold succeeds. intros Hok.
  submit_paths p f w; try congruence.
  - match type of Hrun with
    | match ?e with _ => _ end => destruct e eqn:He
    end; destruct Hrun as [Ht _]; [congruence |].
    destruct (onSuccess_throws w) eqn:Hcb; cbn in Ht; [congruence |].
    eexists _, _. repeat split; eauto.
  - match type of Hrun with
    | match ?e with _ => _ end => destruct e eqn:He
    end; destruct Hrun as [Ht _]; [congruence |].
    destruct (onSuccess_throws w) eqn:Hcb; cbn in Ht; [congruence |].
    eexists _, _. repeat split; eauto.
Qed.

(** The record a submission sends: the entered values under the
    persistence API's property names. *)
Lemma addressData_entered (f : Form.t) (user : User.t) (data : AddressData.t) :
  addressData f user = inr data ->
  data = AddressData.mk (Form.label f) (Form.street f) (Form.city f)
           (VStr (Form.region f)) (Form.zipCode f) (Form.country f)
           (Form.isDefault f) (User.id user) (Form.category f) (Form.email f)
           (Form.phone f) (Form.identification f) (Form.fullName f).
Proof.
  intros Hd. pose proof (addressData_inr f user data Hd) as HCL.
  rewrite (addressData_CL f user HCL) in Hd. congruence.
Qed.

(** A hypothesis that a concrete trace holds a failed persistence call:
    walk the trace and read each event's answer. *)
Ltac scan_failure H :=
  let ev := fresh "ev" in
  let Hin := fresh "Hin" in
  let Herr := fresh "Herr" in
  destruct H as [ev [Hin Herr]]; cbn in Hin;
  repeat (destruct Hin as [Hin | Hin]; [subst ev; cbn in Herr |]);
  try contradiction; try discriminate.

(** ** Create and edit *)

(** C1: a successful submission in create mode calls insert exactly once,
    with a record holding the entered label, street, city, region, postal
    code, country, default flag, category and contact fields, and calls the
    completion callback exactly once. *)
Theorem create_success_inserts_once {lib : FormatRut} (p : Props) (f : Form.t) (w : World) :
  initialData p = None ->
  succeeds p f w ->
  exists user,
    auth_user w = Some user /\
    let data :=
      AddressData.mk (Form.label f) (Form.street f) (Form.city f)
        (VStr (Form.region f)) (Form.zipCode f) (Form.country f)
        (Form.isDefault f) (User.id user) (Form.category f) (Form.email f)
        (Form.phone f) (Form.identification f) (Form.fullName f) in
    let tr := trace (snd (submit p f w)) in
    tr = [PreventDefault; AuthGetUser (Some user);
          Insert "addresses" [data] None; Toast saved_toast; OnSuccess] /\
    count is_insert tr = 1 /\
    count is_update tr = 0 /\
    count is_onSuccess tr = 1.
Proof.
  intros Hp Hok.
  destruct (succeeds_inv p f w Hok) as (user & data & Hu & Hrej & Hd & Hans & Hcb).
  rewrite Hp in Hans.
  pose proof (submit_create p f w user data Hu Hrej Hd Hp) as Hrun.
  cbv zeta in Hrun. rewrite Hans, Hcb in Hrun. destruct Hrun as [_ Hrun].
  exists user. split; [exact Hu |].
  rewrite <- (addressData_entered f user data Hd).
  cbv zeta. rewrite Hrun. cbn. repeat split; reflexivity.
Qed.

Lemma create_success_inserts_once_witness :
  initialData Sample.create = None /\
  @succeeds spec_format_rut Sample.create Sample.form Sample.online /\
  exists user,
    auth_user Sample.online = Some user /\
    let data :=
      AddressData.mk "Casa" "Av. Providencia 1234" "Santiago" (VStr "Metropolitana")
        "7500000" "CL" true (User.id user) casa "ana@example.com" "+56 9 1234 5678"
        "" "Ana Soto" in
    let tr := trace (snd (@submit spec_format_rut Sample.create Sample.form Sample.online)) in
    tr = [PreventDefault; AuthGetUser (Some user);
          Insert "addresses" [data] None; Toast saved_toast; OnSuccess] /\
    count is_insert tr = 1 /\
    count is_update tr = 0 /\
    count is_onSuccess tr = 1.
Proof.
  split; [reflexivity |]. split; [reflexivity |].
  apply (@create_success_inserts_once spec_format_rut Sample.create Sample.form Sample.online);
    reflexivity.
Defined.

(** C5: a successful submission makes exactly one persistence call, chosen
    by the mode: with a pre-fill record, one update matched on the
    original record's id and no insert; without one, one insert and no
    update.  Either way the success notification is shown and the
    completion callback is called. *)
Theorem success_calls_exactly_one {lib : FormatRut} (p : Props) (f : Form.t) (w : World) :
  succeeds p f w ->
  exists user data,
    auth_user w = Some user /\
    addressData f user = inr data /\
    let tr := trace (snd (submit p f w)) in
    match initialData p with
    | Some init =>
        tr = [PreventDefault; AuthGetUser (Some user);
              Update "addresses" data "id" (InitialData.id init) None;
              Toast updated_toast; OnSuccess] /\
        count is_update tr = 1 /\ count is_insert tr = 0
    | None =>
        tr = [PreventDefault; AuthGetUser (Some user);
              Insert "addresses" [data] None;
              Toast saved_toast; OnSuccess] /\
        count is_insert tr = 1 /\ count is_update tr = 0
    end /\
    count is_insert tr + count is_update tr = 1 /\
    count is_onSuccess tr = 1.
Proof.
  intros Hok.
  destruct (succeeds_inv p f w Hok) as (user & data & Hu & Hrej & Hd & Hans & Hcb).
  exists user, data. split; [exact Hu |]. split; [exact Hd |].
  destruct (initialData p) as [init |] eqn:Hp.
  - pose proof (submit_edit p f w user data init Hu Hrej Hd Hp) as Hrun.
    cbv zeta in Hrun. rewrite Hans, Hcb in Hrun. destruct Hrun as [_ Hrun].
    cbv zeta. rewrite Hrun. cbn. repeat split; reflexivity.
  - pose proof (submit_create p f w user data Hu Hrej Hd Hp) as Hrun.
    cbv zeta in Hrun. rewrite Hans, Hcb in Hrun. destruct Hrun as [_ Hrun].
    cbv zeta. rewrite Hrun. cbn. repeat split; reflexivity.
Qed.

Lemma success_calls_exactly_one_witness :
  @succeeds spec_format_rut Sample.edit Sample.form Sample.online /\
  exists user data,
    auth_user Sample.online = Some user /\
    addressData Sample.form user = inr data /\
    let tr := trace (snd (@submit spec_format_rut Sample.edit Sample.form Sample.online)) in
    (tr = [PreventDefault; AuthGetUser (Some user);
           Update "addresses" data "id" "addr-7" None;
           Toast updated_toast; OnSuccess] /\
     count is_update tr = 1 /\ count is_insert tr = 0) /\
    count is_insert tr + count is_update tr = 1 /\
    count is_onSuccess tr = 1.
Proof.
  split; [reflexivity |].
  apply (@success_calls_exactly_one spec_format_rut Sample.edit Sample.form Sample.online).
  reflexivity.
Defined.

(** ** Failures *)

(** C4: without a resolvable session nothing is written: the submission
    makes neither an insert nor an update, and the unauthenticated
    condition reaches the user as an error notification. *)
Theorem unauthenticated_never_writes {lib : FormatRut} (p : Props) (f : Form.t) (w : World) :
  auth_user w = None ->
  let tr := trace (snd (submit p f w)) in
  tr = [PreventDefault; AuthGetUser None;
        Toast (mkToast "Error" "No se encontró usuario" (Some "destructive"))] /\
  count is_insert tr = 0 /\
  count is_update tr = 0 /\
  count is_onSuccess tr = 0.
Proof.
  intros Hu. destruct (submit_unauthenticated p f w Hu) as [_ Hrun].
  cbv zeta. rewrite Hrun. cbn. repeat split; reflexivity.
Qed.

Lemma unauthenticated_never_writes_witness :
  auth_user Sample.anonymous = None /\
  let tr := trace (snd (@submit spec_format_rut Sample.edit Sample.form Sample.anonymous)) in
  tr = [PreventDefault; AuthGetUser None;
        Toast (mkToast "Error" "No se encontró usuario" (Some "destructive"))] /\
  count is_insert tr = 0 /\
  count is_update tr = 0 /\
  count is_onSuccess tr = 0.
Proof.
  split; [reflexivity |].
  apply (@unauthenticated_never_writes spec_format_rut Sample.edit Sample.form Sample.anonymous).
  reflexivity.
Defined.

(** C6: when the persistence call fails, an error notification carrying
    the failure's message is shown, every entered value is still in place,
    the completion callback is not called, and the form is back in the
    editing state. *)
Theorem persistence_failure_keeps_values {lib : FormatRut}
    (p : Props) (f : Form.t) (w : World) (err : JsError) :
  persistence_failed err (trace (snd (submit p f w))) ->
  let s := snd (submit p f w) in
  In (Toast (mkToast "Error" (message err) (Some "destructive"))) (trace s) /\
  hooks s = Form.setLoading false f /\
  count is_onSuccess (trace s) = 0 /\
  phase (hooks s) = editing.
Proof.
  intros Hfail. cbv zeta.
  submit_paths p f w;
    try match goal with
        | Hrun : match ?e with _ => _ end |- _ =>
            destruct e eqn:Hans; destruct Hrun as [_ Hrun];
            [| destruct (onSuccess_throws w)]
        end;
    match goal with
    | Hrun : submit p f w = _ |- _ => rewrite Hrun in Hfail |- *
    end;
    cbn [snd trace hooks app] in Hfail |- *;
    scan_failure Hfail.
  - injection Herr as ->. cbn. repeat split; auto.
  - injection Herr as ->. cbn. repeat split; auto.
Qed.

Lemma persistence_failure_keeps_values_witness :
  persistence_failed Sample.conflict
    (trace (snd (@submit spec_format_rut Sample.create Sample.form Sample.failing))) /\
  let s := snd (@submit spec_format_rut Sample.create Sample.form Sample.failing) in
  In (Toast (mkToast "Error" "duplicate key value" (Some "destructive"))) (trace s) /\
  hooks s = Form.setLoading false Sample.form /\
  count is_onSuccess (trace s) = 0 /\
  phase (hooks s) = editing.
Proof.
  assert (Hfail : persistence_failed Sample.conflict
            (trace (snd (@submit spec_format_rut Sample.create Sample.form Sample.failing)))).
  { eexists. split; [right; right; left; reflexivity | reflexivity]. }
  split; [exact Hfail |].
  exact (@persistence_failure_keeps_values spec_format_rut Sample.create Sample.form
           Sample.failing Sample.conflict Hfail).
Defined.

(** The guard of line 89 spelled out. *)
Lemma identifier_rejected_true {lib : FormatRut} (f : Form.t) :
  truthy_str (Form.identification f) = true ->
  isValidRUT (Form.identification f) = false ->
  identifier_rejected f = true.
Proof.
  intros Hpresent Hbad. unfold identifier_rejected. rewrite Hpresent, Hbad. reflexivity.
Qed.

(** C3, as the code has it: the session is looked up before the identifier
    is checked.  With a resolvable user, a non-empty identifier that fails
    the validator aborts the submission with the validation notification;
    without one the unauthenticated error is shown in its place.  In both
    cases neither insert nor update is called. *)
Theorem rejected_identifier_aborts {lib : FormatRut} (p : Props) (f : Form.t) (w : World) :
  truthy_str (Form.identification f) = true ->
  isValidRUT (Form.identification f) = false ->
  let r := submit p f w in
  (count is_insert (trace (snd r)) = 0 /\
   count is_update (trace (snd r)) = 0 /\
   count is_onSuccess (trace (snd r)) = 0) /\
  (forall user, auth_user w = Some user ->
     r = (Returned,
          mkStore (Form.setLoading false f)
            [PreventDefault; AuthGetUser (Some user);
             Toast (mkToast "Error" "El RUT ingresado no es válido" (Some "destructive"))])) /\
  (auth_user w = None ->
     trace (snd r) =
       [PreventDefault; AuthGetUser None;
        Toast (mkToast "Error" "No se encontró usuario" (Some "destructive"))]).
Proof.
  intros Hpresent Hbad. cbv zeta.
  pose proof (identifier_rejected_true f Hpresent Hbad) as Hrej.
  destruct (auth_user w) as [user |] eqn:Hu.
  - destruct (submit_rejected p f w user Hu Hrej) as [_ Hrun].
    rewrite Hrun. cbn. repeat split; try reflexivity.
    + intros user' Heq. injection Heq as <-. reflexivity.
    + discriminate.
  - destruct (submit_unauthenticated p f w Hu) as [_ Hrun].
    rewrite Hrun. cbn. repeat split; try reflexivity. discriminate.
Qed.

Lemma rejected_identifier_aborts_witness :
  truthy_str (Form.identification Sample.bad_rut) = true /\
  @isValidRUT spec_format_rut (Form.identification Sample.bad_rut) = false /\
  auth_user Sample.online = Some Sample.user /\
  @submit spec_format_rut Sample.create Sample.bad_rut Sample.online =
    (Returned,
     mkStore (Form.setLoading false Sample.bad_rut)
       [PreventDefault; AuthGetUser (Some Sample.user);
        Toast (mkToast "Error" "El RUT ingresado no es válido" (Some "destructive"))]).
Proof.
  split; [reflexivity |]. split; [reflexivity |]. split; [reflexivity |].
  refine (proj1 (proj2 (@rejected_identifier_aborts spec_format_rut Sample.create
                          Sample.bad_rut Sample.online _ _)) Sample.user _);
    reflexivity.
Defined.

(** C3 as stated fails when no session is resolvable: the identifier
    12345678-9 is present and rejected by the validator, yet the only
    notification is the unauthenticated one. *)
Lemma rejected_identifier_counterexample :
  let f := Sample.bad_rut in
  let tr := trace (snd (@submit spec_format_rut Sample.create f Sample.anonymous)) in
  truthy_str (Form.identification f) = true /\
  @isValidRUT spec_format_rut (Form.identification f) = false /\
  tr = [PreventDefault; AuthGetUser None;
        Toast (mkToast "Error" "No se encontró usuario" (Some "destructive"))] /\
  ~ In (Toast invalid_rut_toast) tr.
Proof.
  cbv zeta. repeat split; try reflexivity.
  intros [H | [H | [H | []]]]; discriminate H.
Qed.

(** ** The submitting flag *)

Lemma sync_raises_loading (s : Store) :
  handleSubmit_sync s =
    (Normal tt, mkStore (Form.setLoading true (hooks s)) (trace s ++ [PreventDefault])).
Proof. reflexivity. Qed.

(** The [try] block and the [catch] handler never touch the hooks. *)
Lemma try_keeps_hooks {lib : FormatRut} (p : Props) (f : Form.t) (w : World) (s : Store) :
  hooks (snd (handleSubmit_try p f w s)) = hooks s.
Proof.
  unfold handleSubmit_try, supabase_auth_getUser, supabase_update, supabase_insert,
    bind, lift, emit, ret, throw, return_, toast, onSuccess.
  cbn.
  destruct (auth_user w) as [user |]; [| reflexivity].
  destruct (truthy_str (Form.identification f) && negb (isValidRUT (Form.identification f)));
    [reflexivity |].
  destruct (addressData f user) as [e | data]; [reflexivity |].
  destruct (initialData p) as [init |]; cbn.
  - destruct (update_error w "addresses" data "id" (InitialData.id init));
      [reflexivity | cbn; destruct (onSuccess_throws w); reflexivity].
  - destruct (insert_error w "addresses" [data]);
      [reflexivity | cbn; destruct (onSuccess_throws w); reflexivity].
Qed.

(** Whatever the path, [finally] lowers the flag and nothing else moves. *)
Lemma async_lowers_loading {lib : FormatRut} (p : Props) (f : Form.t) (w : World) (s : Store) :
  hooks (snd (handleSubmit_async p f w s)) = Form.setLoading false (hooks s).
Proof.
  unfold handleSubmit_async, try_catch_finally.
  pose proof (try_keeps_hooks p f w s) as Hk.
  destruct (handleSubmit_try p f w s) as [c1 s1]. cbn in Hk.
  destruct c1 as [[] | | e]; cbn; rewrite Hk; reflexivity.
Qed.

Lemma submit_lowers_loading {lib : FormatRut} (p : Props) (f : Form.t) (w : World) :
  hooks (snd (submit p f w)) = Form.setLoading false f.
Proof.
  unfold submit, handleSubmit, bind. rewrite sync_raises_loading.
  rewrite async_lowers_loading. reflexivity.
Qed.

Lemma react_single_flight {lib : FormatRut} (p : Props) (i : Input) (c : Component) :
  single_flight c -> single_flight (react p i c).
Proof.
  intros Hc.
  destruct i; try (exact Hc).
  - (* the submit control *)
    cbn [react submit_button disabled].
    destruct Hc as [[Hidle Hnone] | [Hbusy Hone]].
    + rewrite Hidle, sync_raises_loading. right. cbn. rewrite Hnone.
      split; [reflexivity | eexists; reflexivity].
    + rewrite Hbusy. right. split; assumption.
  - (* the answers of the pending submission *)
    cbn [react].
    destruct Hc as [[Hidle Hnone] | [Hbusy [g Hone]]].
    + rewrite Hnone. left. split; assumption.
    + rewrite Hone. left. cbn [live in_flight]. rewrite async_lowers_loading.
      split; reflexivity.
Qed.

Lemma run_single_flight {lib : FormatRut} (p : Props) (inputs : list Input) :
  single_flight (run p inputs).
Proof.
  unfold run.
  assert (Hstart : single_flight (start p)) by (left; split; reflexivity).
  generalize dependent (start p).
  induction inputs as [| i rest IH]; intros c Hc; cbn [fold_left].
  - exact Hc.
  - apply IH. apply react_single_flight. exact Hc.
Qed.

(** C9: the form has two states.  It is mounted in editing; dispatching a
    submission raises the flag, which disables the submit control; every
    way a submission can end lowers it again; and over any sequence of
    user inputs and answers at most one submission is in flight, exactly
    while the form is submitting, during which pressing submit does
    nothing. *)
Theorem form_two_state_machine {lib : FormatRut} (p : Props) :
  phase (mount p) = editing /\
  (forall s,
     let s' := snd (handleSubmit_sync s) in
     phase (hooks s') = submitting /\ disabled (submit_button p (hooks s')) = true) /\
  (forall f w s, phase (hooks (snd (handleSubmit_async p f w s))) = editing) /\
  (forall f w, phase (hooks (snd (submit p f w))) = editing) /\
  (forall inputs,
     let c := run p inputs in
     length (in_flight c) <= 1 /\
     (phase (live c) = submitting <-> in_flight c <> []) /\
     (disabled (submit_button p (live c)) = true <-> phase (live c) = submitting) /\
     (phase (live c) = submitting -> react p PressSubmit c = c)).
Proof.
  split; [reflexivity |].
  split; [intros s; rewrite sync_raises_loading; split; reflexivity |].
  split; [intros f w s; rewrite async_lowers_loading; reflexivity |].
  split; [intros f w; rewrite submit_lowers_loading; reflexivity |].
  intros inputs c. pose proof (run_single_flight p inputs) as Hc. fold c in Hc.
  clearbody c. unfold phase. cbn [submit_button disabled react].
  destruct Hc as [[Hidle Hnone] | [Hbusy [g Hone]]].
  - rewrite Hidle, Hnone. cbn. repeat split; try discriminate; try congruence. lia.
  - rewrite Hbusy, Hone. cbn. repeat split; try discriminate; try congruence. lia.
Qed.

(** ** The identification input *)

Lemma rut_input_char_alphabet (c : ascii) :
  rut_input_char c = existsb (Ascii.eqb c) rut_input_alphabet.
Proof.
  destruct c as [[] [] [] [] [] [] [] []]; reflexivity.
Qed.

Lemma keep_filter (q : ascii -> bool) (s : string) :
  list_ascii_of_string (keep q s) = filter q (list_ascii_of_string s).
Proof.
  induction s as [| c rest IH]; cbn; [reflexivity |].
  destruct (q c); cbn; rewrite IH; reflexivity.
Qed.

(** C10: after a change event the identification hook holds [formatRUT]
    of the raw input filtered down to digits, k, K and the hyphen, and no
    other hook moves; no input of the component stores anything else in
    that hook. *)
Theorem identification_always_formatted {lib : FormatRut} :
  (forall raw f,
     Form.identification (handleIdentificationChange raw f) =
       formatRUT (strip_rut_input raw) /\
     Form.setIdentification (Form.identification f) (handleIdentificationChange raw f) =
       Form.setIdentification (Form.identification f) f) /\
  (forall raw,
     list_ascii_of_string (strip_rut_input raw) =
       filter rut_input_char (list_ascii_of_string raw)) /\
  (forall ch, rut_input_char ch = true <-> In ch rut_input_alphabet) /\
  (forall p i c,
     Form.identification (live (react p i c)) =
       match i with
       | ChangeIdentification raw => formatRUT (strip_rut_input raw)
       | _ => Form.identification (live c)
       end).
Proof.
  split; [intros raw f; split; reflexivity |].
  split; [intros raw; apply keep_filter |].
  split.
  - intros ch. rewrite rut_input_char_alphabet, existsb_exists. split.
    + intros [x [Hin Heq]]. apply Ascii.eqb_eq in Heq. subst x. exact Hin.
    + intros Hin. exists ch. split; [exact Hin | apply Ascii.eqb_refl].
  - intros p i c. destruct i; try reflexivity.
    + cbn [react submit_button disabled].
      destruct (Form.loading (live c)); [reflexivity |].
      rewrite sync_raises_loading. reflexivity.
    + cbn [react]. destruct (in_flight c) as [| g rest]; [reflexivity |].
      cbn [live]. rewrite async_lowers_loading. reflexivity.
Qed.

(** ** The specified identifier helpers *)

Module RutSpecFacts.
Import RutSpec.

Lemma keep_all_chars (q : ascii -> bool) (s : string) :
  all_chars q (keep q s) = true.
Proof.
  induction s as [| c rest IH]; cbn; [reflexivity |].
  destruct (q c) eqn:Hq; cbn; [rewrite Hq |]; exact IH.
Qed.

(** Filtering a hyphenated identifier gives back its characters. *)
Lemma keep_hyphenate (q : ascii -> bool) (t : string) :
  q "-"%char = false ->
  all_chars q t = true ->
  keep q (hyphenate t) = t.
Proof.
  intros Hhy. induction t as [| c rest IH]; intros Hall; [reflexivity |].
  cbn [all_chars] in Hall. apply andb_true_iff in Hall. destruct Hall as [Hc Hrest].
  destruct rest as [| c' rest'].
  - cbn. rewrite Hhy, Hc. reflexivity.
  - change (hyphenate (String c (String c' rest')))
      with (String c (hyphenate (String c' rest'))).
    cbn [keep]. rewrite Hc. f_equal. apply IH. exact Hrest.
Qed.

Lemma clean_formatRUT (x : string) :
  keep rut_char (formatRUT x) = keep rut_char x.
Proof.
  unfold formatRUT. apply keep_hyphenate; [reflexivity | apply keep_all_chars].
Qed.

End RutSpecFacts.

(** C7: the Identifier Formatter is idempotent and maps the empty input to
    the empty output; being a total function on strings, it has no error
    condition. *)
Theorem formatRUT_idempotent :
  (forall x, RutSpec.formatRUT (RutSpec.formatRUT x) = RutSpec.formatRUT x) /\
  RutSpec.formatRUT "" = "".
Proof.
  split; [| reflexivity].
  intros x. unfold RutSpec.formatRUT at 1.
  rewrite RutSpecFacts.clean_formatRUT. reflexivity.
Qed.

Module ValidatorFacts.
Import RutSpec.
Local Open Scope string_scope.

Lemma next_weight_at (i : nat) : next_weight (weight_at i) = weight_at (S i).
Proof.
  unfold next_weight, weight_at.
  pose proof (Nat.mod_upper_bound i 6 ltac:(discriminate)) as Hr.
  pose proof (Nat.div_mod_eq i 6) as Hi.
  destruct (Nat.eq_dec (i mod 6) 5) as [H5 | H5].
  - assert (HS : S i mod 6 = 0).
    { symmetry. apply (Nat.mod_unique (S i) 6 (S (i / 6)) 0); lia. }
    rewrite HS, H5. reflexivity.
  - assert (HS : S i mod 6 = S (i mod 6)).
    { symmetry. apply (Nat.mod_unique (S i) 6 (i / 6) (S (i mod 6))); lia. }
    rewrite HS.
    destruct (Nat.eqb_spec (2 + i mod 6) 7) as [E | _]; [lia | reflexivity].
Qed.

(** The running weight of the loop is the positional weight. *)
Lemma weighted_sum_positional (i : nat) (ds : list nat) :
  weighted_sum (weight_at i) ds = positional_sum i ds.
Proof.
  revert i. induction ds as [| d rest IH]; intros i; cbn [weighted_sum positional_sum];
    [reflexivity |].
  rewrite next_weight_at, IH. reflexivity.
Qed.

(** The positional sum written with the library's sum over the digits
    paired with their positions. *)
Lemma positional_sum_list_sum (i : nat) (ds : list nat) :
  positional_sum i ds =
    list_sum (map (fun id => snd id * (2 + fst id mod 6))
                (combine (seq i (List.length ds)) ds)).
Proof.
  revert i. induction ds as [| d rest IH]; intros i; cbn; [reflexivity |].
  rewrite IH. reflexivity.
Qed.

Lemma all_chars_forallb (q : ascii -> bool) (s : string) :
  all_chars q s = forallb q (list_ascii_of_string s).
Proof.
  induction s as [| c rest IH]; cbn; [reflexivity |]. rewrite IH. reflexivity.
Qed.

Lemma split_check_last (body : string) (k : ascii) :
  split_check (body ++ String "-" (String k EmptyString)) = Some (body, k).
Proof.
  induction body as [| c rest IH]; [reflexivity |].
  cbn [append split_check]. rewrite IH.
  destruct (c =? "-")%char; [| reflexivity].
  destruct rest as [| c' rest']; [reflexivity |].
  cbn [append]. destruct (rest' ++ String "-" (String k EmptyString)) eqn:E; [| reflexivity].
  destruct rest'; discriminate E.
Qed.

Lemma split_check_sound (s body : string) (k : ascii) :
  split_check s = Some (body, k) ->
  s = body ++ String "-" (String k EmptyString).
Proof.
  revert body. induction s as [| c rest IH]; intros body Hs; [discriminate Hs |].
  cbn [split_check] in Hs.
  assert (Hrec : (c = "-"%char /\ rest = String k EmptyString /\ body = EmptyString) \/
                 match split_check rest with
                 | Some (b, k') => Some (String c b, k')
                 | None => None
                 end = Some (body, k)).
  { destruct (Ascii.eqb_spec c "-"%char) as [-> | Hc]; [| right; exact Hs].
    destruct rest as [| k' [| c'' rest'']].
    - right. exact Hs.
    - left. injection Hs as <- <-. repeat split.
    - right. exact Hs. }
  destruct Hrec as [(-> & -> & ->) | Hrec]; [reflexivity |].
  destruct (split_check rest) as [[b k'] |]; [| discriminate Hrec].
  injection Hrec as <- <-. cbn [append]. f_equal. apply IH. reflexivity.
Qed.

Lemma all_chars_app (q : ascii -> bool) (s t : string) :
  all_chars q (s ++ t) = all_chars q s && all_chars q t.
Proof.
  induction s as [| c rest IH]; cbn; [reflexivity |].
  rewrite IH. apply andb_assoc.
Qed.

(** A string of digits that holds no digit is empty. *)
Lemma digits_without_digit (s : string) :
  all_chars is_digit s = true ->
  all_chars (fun c => negb (is_digit c)) s = true ->
  s = EmptyString.
Proof.
  destruct s as [| c rest]; [reflexivity |]. cbn.
  destruct (is_digit c); cbn; [intros _ H | intros H]; discriminate H.
Qed.

(** The check character of the empty body is 0, and no character other
    than a digit compares equal to it, whatever its case. *)
Lemma zero_check_not_matched (k : ascii) :
  is_digit k = false ->
  (upper (check_char (checksum EmptyString)) =? upper k)%char = false.
Proof.
  destruct k as [[] [] [] [] [] [] [] []]; cbn; intros H;
    first [reflexivity | discriminate H].
Qed.

(** Comparing without regard to case against a check character, which is
    a digit or K: the supplied character is that very character, or it is
    the lower-case k where K is expected. *)
Lemma compare_ignoring_case (v : nat) (k : ascii) :
  1 <= v <= 11 ->
  (upper (check_char v) =? upper k)%char =
    ((check_char v =? k)%char || ((check_char v =? "K")%char && (k =? "k")%char)).
Proof.
  intros [Hlo Hhi].
  destruct v as [| v]; [lia |].
  do 11 (destruct v as [| v];
         [destruct k as [[] [] [] [] [] [] [] []]; reflexivity |]).
  lia.
Qed.

End ValidatorFacts.

(** C8: the Identifier Validator, on a body, a hyphen and a check
    character: the body must be digits; they are summed with the weights
    2, 3, 4, 5, 6, 7, 2, ... starting from the last (least significant)
    digit; the sum is reduced modulo 11 and mapped, 11 to 0, 10 to K, any
    other value to its digit; the result is compared with the supplied
    character, a lower-case k standing for K.  The validator is a total
    boolean function: anything that is not of that shape, the empty
    string and every string that holds no digit are invalid. *)
Theorem isValidRUT_checksum :
  (forall body k,
     let chars := list_ascii_of_string body in
     let digits := rev (map (fun c => nat_of_ascii c - 48) chars) in
     let sum :=
       list_sum (map (fun id => snd id * (2 + fst id mod 6))
                   (combine (seq 0 (List.length digits)) digits)) in
     let v := 11 - sum mod 11 in
     let expected :=
       if (v =? 11)%nat then "0"%char
       else if (v =? 10)%nat then "K"%char
       else ascii_of_nat (48 + v) in
     RutSpec.isValidRUT (body ++ String "-" (String k EmptyString)) =
       forallb (fun c => (48 <=? nat_of_ascii c)%nat && (nat_of_ascii c <=? 57)%nat) chars
       && ((expected =? k)%char || ((expected =? "K")%char && (k =? "k")%char))) /\
  (forall x,
     (forall body k, x <> (body ++ String "-" (String k EmptyString))%string) ->
     RutSpec.isValidRUT x = false) /\
  RutSpec.isValidRUT "" = false /\
  (forall x,
     forallb (fun c => negb ((48 <=? nat_of_ascii c)%nat && (nat_of_ascii c <=? 57)%nat))
       (list_ascii_of_string x) = true ->
     RutSpec.isValidRUT x = false) /\
  (RutSpec.isValidRUT "12345678-5" = true /\
   RutSpec.isValidRUT "12345678-6" = false /\
   RutSpec.isValidRUT "6-K" = true /\
   RutSpec.isValidRUT "6-k" = true /\
   RutSpec.isValidRUT "6-1" = false /\
   RutSpec.isValidRUT "14-0" = true).
Proof.
  split.
  { intros body k chars digits sum v expected.
    unfold RutSpec.isValidRUT. rewrite ValidatorFacts.split_check_last.
    rewrite ValidatorFacts.all_chars_forallb.
    change (forallb RutSpec.is_digit (list_ascii_of_string body))
      with (forallb (fun c => (48 <=? nat_of_ascii c)%nat && (nat_of_ascii c <=? 57)%nat)
              chars).
    f_equal.
    assert (Hv : RutSpec.checksum body = v).
    { unfold RutSpec.checksum, v, sum.
      rewrite (ValidatorFacts.weighted_sum_positional 0).
      rewrite ValidatorFacts.positional_sum_list_sum. reflexivity. }
    rewrite Hv.
    change expected with (RutSpec.check_char v).
    apply ValidatorFacts.compare_ignoring_case.
    unfold v. pose proof (Nat.mod_upper_bound sum 11 ltac:(discriminate)). lia. }
  split.
  { intros x Hshape. unfold RutSpec.isValidRUT.
    destruct (RutSpec.split_check x) as [[body k] |] eqn:Hs; [| reflexivity].
    apply ValidatorFacts.split_check_sound in Hs. exfalso. exact (Hshape body k Hs). }
  split; [reflexivity |].
  split.
  { intros x Hnone. unfold RutSpec.isValidRUT.
    destruct (RutSpec.split_check x) as [[body k] |] eqn:Hs; [| reflexivity].
    apply ValidatorFacts.split_check_sound in Hs. subst x.
    change (forallb (fun c => negb (RutSpec.is_digit c))
              (list_ascii_of_string (body ++ String "-" (String k EmptyString))) = true)
      in Hnone.
    rewrite <- ValidatorFacts.all_chars_forallb in Hnone.
    rewrite ValidatorFacts.all_chars_app in Hnone.
    apply andb_true_iff in Hnone. destruct Hnone as [Hbody Hk].
    cbn in Hk. rewrite !andb_true_r in Hk. apply negb_true_iff in Hk.
    destruct (RutSpec.all_chars RutSpec.is_digit body) eqn:Hdig; [| reflexivity].
    rewrite (ValidatorFacts.digits_without_digit body Hdig Hbody).
    cbn [andb]. apply (ValidatorFacts.zero_check_not_matched k Hk). }
  repeat split; reflexivity.
Qed.

(** * Further properties of the component *)

(** ** What one submission adds to the trace *)

(** The asynchronous part only appends to the trace it finds, lowers the
    flag in the hooks it finds, and completes the same way whatever they
    were. *)
Lemma async_frame {lib : FormatRut} (p : Props) (f : Form.t) (w : World) (s : Store) :
  handleSubmit_async p f w s =
    (fst (handleSubmit_async p f w (mkStore f [])),
     mkStore (Form.setLoading false (hooks s)) (trace s ++ submission_events p f w)).
Proof.
  unfold submission_events, handleSubmit_async, try_catch_finally, handleSubmit_try,
    handleSubmit_catch, handleSubmit_finally, setLoading, update_hooks,
    supabase_auth_getUser, supabase_update, supabase_insert,
    bind, lift, emit, ret, throw, return_, toast, onSuccess.
  cbn.
  destruct (auth_user w) as [user |]; cbn; [| rewrite <- !app_assoc; reflexivity].
  destruct (truthy_str (Form.identification f) && negb (isValidRUT (Form.identification f)));
    cbn; [rewrite <- !app_assoc; reflexivity |].
  destruct (addressData f user) as [e | data]; cbn; [rewrite <- !app_assoc; reflexivity |].
  destruct (initialData p) as [init |]; cbn.
  - destruct (update_error w "addresses" data "id" (InitialData.id init)); cbn;
      [| destruct (onSuccess_throws w); cbn]; rewrite <- !app_assoc; reflexivity.
  - destruct (insert_error w "addresses" [data]); cbn;
      [| destruct (onSuccess_throws w); cbn]; rewrite <- !app_assoc; reflexivity.
Qed.

Lemma submit_trace {lib : FormatRut} (p : Props) (f : Form.t) (w : World) :
  trace (snd (submit p f w)) = PreventDefault :: submission_events p f w.
Proof.
  unfold submit, handleSubmit, bind. rewrite sync_raises_loading, async_frame.
  reflexivity.
Qed.

(** The five shapes of a submission, in the order of its guards. *)
Lemma submission_events_shape {lib : FormatRut} (p : Props) (f : Form.t) (w : World) :
  (auth_user w = None /\
   submission_events p f w = [AuthGetUser None; Toast (error_toast unauthenticated)])
  \/
  (exists user,
     auth_user w = Some user /\ identifier_rejected f = true /\
     submission_events p f w = [AuthGetUser (Some user); Toast invalid_rut_toast])
  \/
  (exists user e,
     auth_user w = Some user /\ identifier_rejected f = false /\
     addressData f user = inl e /\
     submission_events p f w = [AuthGetUser (Some user); Toast (error_toast e)])
  \/
  (exists user data err,
     auth_user w = Some user /\ identifier_rejected f = false /\
     addressData f user = inr data /\
     call_error (persistence_call p w data) = Some err /\
     submission_events p f w =
       [AuthGetUser (Some user); persistence_call p w data; Toast (error_toast err)])
  \/
  (exists user data,
     auth_user w = Some user /\ identifier_rejected f = false /\
     addressData f user = inr data /\
     call_error (persistence_call p w data) = None /\
     submission_events p f w =
       [AuthGetUser (Some user); persistence_call p w data; Toast (success_toast p);
        OnSuccess]
       ++ match onSuccess_throws w with
          | Some thrown => [Toast (error_toast thrown)]
          | None => []
          end).
Proof.
  pose proof (submit_trace p f w) as Htr.
  unfold persistence_call, success_toast.
  submit_paths p f w;
    try match goal with
        | Hrun : match ?e with _ => _ end |- _ =>
            destruct e eqn:Hans; destruct Hrun as [_ Hrun]
        end;
    match goal with
    | Hrun : submit p f w = _ |- _ =>
        rewrite Hrun in Htr; cbn [snd trace app] in Htr;
        injection Htr as Htr; symmetry in Htr
    end.
  - right. left. eauto.
  - right. right. left. eauto 6.
  - right. right. right. left. eexists _, _, _. rewrite Hans. cbn. eauto 6.
  - right. right. right. right. eexists _, _. rewrite Hans, Htr.
    destruct (onSuccess_throws w); cbn; eauto 6.
  - right. right. right. left. eexists _, _, _. rewrite Hans. cbn. eauto 6.
  - right. right. right. right. eexists _, _. rewrite Hans, Htr.
    destruct (onSuccess_throws w); cbn; eauto 6.
  - left. eauto.
Qed.

Ltac submission_shapes p f w :=
  let user := fresh "user" in
  let data := fresh "data" in
  let e := fresh "e" in
  let err := fresh "err" in
  let Hu := fresh "Hu" in
  let Hrej := fresh "Hrej" in
  let Hd := fresh "Hd" in
  let Hans := fresh "Hans" in
  let Hev := fresh "Hev" in
  destruct (submission_events_shape p f w)
    as [(Hu & Hev)
       | [(user & Hu & Hrej & Hev)
         | [(user & e & Hu & Hrej & Hd & Hev)
           | [(user & data & err & Hu & Hrej & Hd & Hans & Hev)
             | (user & data & Hu & Hrej & Hd & Hans & Hev)]]]].

Lemma persistence_call_is_persistence (p : Props) (w : World) (data : AddressData.t) :
  is_persistence (persistence_call p w data) = true /\
  is_toast (persistence_call p w data) = false /\
  is_getUser (persistence_call p w data) = false /\
  is_onSuccess (persistence_call p w data) = false /\
  is_preventDefault (persistence_call p w data) = false /\
  written (persistence_call p w data) = [data].
Proof.
  unfold persistence_call. destruct (initialData p); repeat split; reflexivity.
Qed.

Lemma count_app (q : Event -> bool) (a b : list Event) :
  count q (a ++ b) = count q a + count q b.
Proof.
  unfold count. rewrite filter_app, length_app. reflexivity.
Qed.

(** The counts of each kind of event in what one submission adds.  The
    one notification becomes two exactly when the callback was called and
    threw. *)
Lemma submission_events_counts {lib : FormatRut} (p : Props) (f : Form.t) (w : World) :
  let evs := submission_events p f w in
  count is_preventDefault evs = 0 /\
  count is_getUser evs = 1 /\
  count is_toast evs =
    1 + match onSuccess_throws w with
        | Some _ => count is_onSuccess evs
        | None => 0
        end /\
  count is_persistence evs <= 1 /\
  count is_onSuccess evs <= count is_persistence evs.
Proof.
  cbv zeta.
  submission_shapes p f w; rewrite Hev; unfold count; cbn [filter app];
    try (destruct (persistence_call_is_persistence p w data)
           as (Hp1 & Hp2 & Hp3 & Hp4 & Hp5 & _);
         rewrite ?Hp1, ?Hp2, ?Hp3, ?Hp4, ?Hp5);
    destruct (onSuccess_throws w); cbn; repeat split; lia.
Qed.

(** ** One submission *)

(** X1: the promise [handleSubmit] returns never rejects.  Every throw of
    the handler sits inside its [try]; the call ends by the early return
    exactly when a user is resolved and the identifier is rejected, and
    normally on every other path, whatever the store it starts from. *)
Theorem handleSubmit_never_rejects {lib : FormatRut}
    (p : Props) (f : Form.t) (w : World) (s : Store) :
  fst (handleSubmit p f w s) =
    match auth_user w with
    | Some _ => if identifier_rejected f then Returned else Normal tt
    | None => Normal tt
    end /\
  forall e, fst (handleSubmit p f w s) <> Thrown e.
Proof.
  assert (Hc : fst (handleSubmit p f w s) =
               match auth_user w with
               | Some _ => if identifier_rejected f then Returned else Normal tt
               | None => Normal tt
               end).
  { unfold handleSubmit, bind. rewrite sync_raises_loading, async_frame.
    cbn [fst]. fold (submit_try p f w).
    unfold handleSubmit_async, try_catch_finally, handleSubmit_try,
      handleSubmit_catch, handleSubmit_finally, setLoading, update_hooks,
      supabase_auth_getUser, supabase_update, supabase_insert, identifier_rejected,
      bind, lift, emit, ret, throw, return_, toast, onSuccess.
    cbn.
    destruct (auth_user w) as [user |]; cbn; [| reflexivity].
    destruct (truthy_str (Form.identification f)
              && negb (isValidRUT (Form.identification f))); cbn; [reflexivity |].
    destruct (addressData f user) as [e | data]; cbn; [reflexivity |].
    destruct (initialData p) as [init |]; cbn.
    - destruct (update_error w "addresses" data "id" (InitialData.id init));
        [reflexivity | cbn; destruct (onSuccess_throws w); reflexivity].
    - destruct (insert_error w "addresses" [data]);
        [reflexivity | cbn; destruct (onSuccess_throws w); reflexivity]. }
  split; [exact Hc |].
  intros e. rewrite Hc.
  destruct (auth_user w); [destruct (identifier_rejected f) |]; discriminate.
Qed.

(** X2: every submission, whatever its outcome, first prevents the
    default form action and looks the user up, does that lookup exactly
    once and makes at most one persistence call.  It shows one
    notification, and a second one exactly when the completion callback
    was called and threw: that error is caught like any other. *)
Theorem submission_lookup_and_toasts {lib : FormatRut}
    (p : Props) (f : Form.t) (w : World) :
  let tr := trace (snd (submit p f w)) in
  (exists rest, tr = PreventDefault :: AuthGetUser (auth_user w) :: rest) /\
  count is_getUser tr = 1 /\
  count is_persistence tr <= 1 /\
  count is_toast tr =
    1 + match onSuccess_throws w with
        | Some _ => count is_onSuccess tr
        | None => 0
        end.
Proof.
  cbv zeta. rewrite submit_trace.
  pose proof (submission_events_counts p f w) as (_ & Hg & Ht & Hp & _).
  change (PreventDefault :: submission_events p f w)
    with ([PreventDefault] ++ submission_events p f w).
  rewrite !count_app, Hg, Ht. cbn [app].
  split.
  - submission_shapes p f w; rewrite Hev, ?Hu; eexists; reflexivity.
  - repeat split; cbn; try lia; destruct (onSuccess_throws w); lia.
Qed.

(** Membership in a concrete trace, event by event. *)
Ltac scan_trace H :=
  cbn in H; repeat (destruct H as [H | H]; [try discriminate H |]); try contradiction.

(** X3: the completion callback is called exactly when a persistence call
    was answered without an error, after that call and never more than
    once.  The submission succeeds exactly when the callback was called
    and returned. *)
Theorem onSuccess_after_persisted {lib : FormatRut} (p : Props) (f : Form.t) (w : World) :
  let tr := trace (snd (submit p f w)) in
  (In OnSuccess tr <->
   exists call, In call tr /\ is_persistence call = true /\ call_error call = None) /\
  count is_onSuccess tr <= 1 /\
  (In OnSuccess tr ->
   exists before call after,
     tr = before ++ call :: after /\
     is_persistence call = true /\ call_error call = None /\ In OnSuccess after) /\
  (succeeds p f w <-> In OnSuccess tr /\ onSuccess_throws w = None).
Proof.
  cbv zeta. unfold succeeds.
  submit_paths p f w;
    try match goal with
        | Hrun : match ?e with _ => _ end |- _ =>
            destruct e eqn:Hans; destruct Hrun as [? Hrun];
            [| destruct (onSuccess_throws w) eqn:Hcb]
        end;
    match goal with
    | Hrun : submit p f w = _, Htry : submit_try p f w = _ |- _ =>
        rewrite Hrun, Htry
    end; cbn [snd fst trace app].
  all: split; [split |].
  all: try (intros Hin; exfalso; scan_trace Hin; fail).
  all: try (intros (call & Hin & Hper & Herr); exfalso; cbn in Hin;
            repeat (destruct Hin as [<- | Hin]; [try discriminate Hper; try discriminate Herr |]);
            try contradiction; fail).
  all: try (intros _; eexists; split; [right; right; left; reflexivity |];
            split; reflexivity).
  all: try (intros _; cbn; auto 8; fail).
  all: (split; [cbn; lia |]).
  all: split.
  all: try (intros Hin; exfalso; scan_trace Hin; fail).
  all: try (intros _; eexists [_; _], _, _; split; [reflexivity |];
            split; [reflexivity |]; split; [reflexivity |]; cbn; auto; fail).
  all: split.
  all: try (intros Hc; discriminate Hc).
  all: try (intros [Hin _]; exfalso; scan_trace Hin; fail).
  all: try (intros [_ Hc]; discriminate Hc).
  all: try (intros _; split; [cbn; auto 8 | reflexivity]).
  all: intros _; reflexivity.
Qed.

Lemma identifier_rejected_false {lib : FormatRut} (f : Form.t) :
  identifier_rejected f = false <->
  Form.identification f = "" \/ isValidRUT (Form.identification f) = true.
Proof.
  unfold identifier_rejected, truthy_str.
  destruct (String.eqb_spec (Form.identification f) "") as [E | Hne]; cbn.
  - split; auto.
  - destruct (isValidRUT (Form.identification f)); cbn; split; auto.
    intros [E | E]; [contradiction | discriminate E].
Qed.

(** X4: a submission succeeds exactly when a user is resolved, the
    identifier is empty or passes the validator, the record can be built,
    the persistence call of the mode answers without an error, and the
    completion callback returns.  An empty identification passes the
    guard whatever the validator would answer for it. *)
Theorem succeeds_iff {lib : FormatRut} (p : Props) (f : Form.t) (w : World) :
  (succeeds p f w <->
   exists user data,
     auth_user w = Some user /\
     (Form.identification f = "" \/ isValidRUT (Form.identification f) = true) /\
     addressData f user = inr data /\
     match initialData p with
     | Some init => update_error w "addresses" data "id" (InitialData.id init) = None
     | None => insert_error w "addresses" [data] = None
     end /\
     onSuccess_throws w = None) /\
  (Form.identification f = "" -> identifier_rejected f = false).
Proof.
  split; [| intros Hempty; apply identifier_rejected_false; left; exact Hempty].
  split.
  - intros Hok.
    destruct (succeeds_inv p f w Hok) as (user & data & Hu & Hrej & Hd & Hans & Hcb).
    exists user, data. rewrite <- identifier_rejected_false. auto.
  - intros (user & data & Hu & Hid & Hd & Hans & Hcb).
    apply identifier_rejected_false in Hid. unfold succeeds.
    destruct (initialData p) as [init |] eqn:Hp.
    + pose proof (submit_edit p f w user data init Hu Hid Hd Hp) as Hrun.
      cbv zeta in Hrun. rewrite Hans, Hcb in Hrun. exact (proj1 Hrun).
    + pose proof (submit_create p f w user data Hu Hid Hd Hp) as Hrun.
      cbv zeta in Hrun. rewrite Hans, Hcb in Hrun. exact (proj1 Hrun).
Qed.

(** X5: whatever a submission writes, whether the call then succeeds or
    fails, is the values of the render it was created in, stamped with the
    id of the user the lookup returned; the country of such a record is
    always CL and its state is the region hook. *)
Theorem written_record_is_entered {lib : FormatRut}
    (p : Props) (f : Form.t) (w : World) (ev : Event) (r : AddressData.t) :
  In ev (trace (snd (submit p f w))) ->
  In r (written ev) ->
  exists user,
    auth_user w = Some user /\
    Form.country f = "CL" /\
    r = AddressData.mk (Form.label f) (Form.street f) (Form.city f)
          (VStr (Form.region f)) (Form.zipCode f) "CL" (Form.isDefault f)
          (User.id user) (Form.category f) (Form.email f) (Form.phone f)
          (Form.identification f) (Form.fullName f).
Proof.
  rewrite submit_trace. intros Hev Hr.
  destruct Hev as [<- | Hev]; [contradiction Hr |].
  submission_shapes p f w; rewrite Hev0 in Hev;
    destruct (onSuccess_throws w); cbn in Hev;
    repeat (destruct Hev as [<- | Hev]; [try contradiction Hr |]);
    try contradiction.
  all: destruct (persistence_call_is_persistence p w data) as (_ & _ & _ & _ & _ & Hw);
    rewrite Hw in Hr; destruct Hr as [<- | []];
    exists user; (split; [exact Hu |]);
    pose proof (addressData_inr f user data Hd) as HCL; (split; [exact HCL |]);
    rewrite (addressData_entered f user data Hd), HCL; reflexivity.
Qed.

Lemma written_record_is_entered_witness :
  let tr := trace (snd (@submit spec_format_rut Sample.create Sample.form Sample.failing)) in
  let r :=
    AddressData.mk "Casa" "Av. Providencia 1234" "Santiago" (VStr "Metropolitana")
      "7500000" "CL" true "user-1" casa "ana@example.com" "+56 9 1234 5678" ""
      "Ana Soto" in
  let ev := Insert "addresses" [r] (Some Sample.conflict) in
  In ev tr /\ In r (written ev) /\
  exists user,
    auth_user Sample.failing = Some user /\
    Form.country Sample.form = "CL" /\
    r = AddressData.mk (Form.label Sample.form) (Form.street Sample.form)
          (Form.city Sample.form) (VStr (Form.region Sample.form))
          (Form.zipCode Sample.form) "CL" (Form.isDefault Sample.form)
          (User.id user) (Form.category Sample.form) (Form.email Sample.form)
          (Form.phone Sample.form) (Form.identification Sample.form)
          (Form.fullName Sample.form).
Proof.
  cbv zeta.
  assert (Hev : In (Insert "addresses"
                      [AddressData.mk "Casa" "Av. Providencia 1234" "Santiago"
                         (VStr "Metropolitana") "7500000" "CL" true "user-1" casa
                         "ana@example.com" "+56 9 1234 5678" "" "Ana Soto"]
                      (Some Sample.conflict))
                   (trace (snd (@submit spec_format_rut Sample.create Sample.form
                                  Sample.failing)))).
  { right. right. left. reflexivity. }
  split; [exact Hev |]. split; [left; reflexivity |].
  exact (@written_record_is_entered spec_format_rut Sample.create Sample.form
           Sample.failing _ _ Hev (or_introl eq_refl)).
Defined.

(** ** Mounting *)

Lemma or_str_same (s : string) : or_str (Some s) "" = s.
Proof.
  unfold or_str. destruct (String.eqb_spec s "") as [-> | _]; reflexivity.
Qed.

Lemma or_str_nonempty (o : option string) (d : string) : d <> "" -> or_str o d <> "".
Proof.
  intros Hd. unfold or_str. destruct o as [s |]; [| exact Hd].
  destruct (String.eqb_spec s "") as [_ | Hs]; assumption.
Qed.

(** X6: a form always mounts idle, with a non-empty country and with the
    highlighted category equal to the stored one.  The fallbacks of the
    initial values leave the required fields of a pre-fill record as they
    are, and replace only an empty country, by CL. *)
Theorem mount_defaults (p : Props) :
  Form.loading (mount p) = false /\
  Form.country (mount p) <> "" /\
  Form.selectedCategory (mount p) = Form.category (mount p) /\
  (forall init, initialData p = Some init ->
     Form.label (mount p) = InitialData.label init /\
     Form.street (mount p) = InitialData.street init /\
     Form.city (mount p) = InitialData.city init /\
     Form.region (mount p) = InitialData.state init /\
     Form.zipCode (mount p) = InitialData.zip_code init /\
     Form.isDefault (mount p) = InitialData.is_default init /\
     Form.category (mount p) = InitialData.category init /\
     Form.country (mount p) =
       (if (InitialData.country init =? "") then "CL" else InitialData.country init)).
Proof.
  split; [reflexivity |].
  split; [apply or_str_nonempty; discriminate |].
  split; [reflexivity |].
  intros init Hp. unfold mount, chain, chain_optional. rewrite Hp.
  cbn -[or_str String.eqb]. rewrite !or_str_same. repeat split; reflexivity.
Qed.

(** X7: opening a stored CL address for editing and submitting it
    untouched sends an update, matched on the record's id, whose patch is
    the stored values; contact fields the record lacks go out as empty
    strings. *)
Theorem edit_untouched_round_trip {lib : FormatRut}
    (init : InitialData.t) (w : World) (user : User.t) :
  let p := mkProps (Some init) in
  InitialData.country init = "CL" ->
  auth_user w = Some user ->
  identifier_rejected (mount p) = false ->
  exists error rest,
    trace (snd (submit p (mount p) w)) =
      PreventDefault :: AuthGetUser (Some user)
      :: Update "addresses"
           (AddressData.mk (InitialData.label init) (InitialData.street init)
              (InitialData.city init) (VStr (InitialData.state init))
              (InitialData.zip_code init) "CL" (InitialData.is_default init)
              (User.id user) (InitialData.category init)
              (or_str (InitialData.email init) "") (or_str (InitialData.phone init) "")
              (or_str (InitialData.identification init) "")
              (or_str (InitialData.full_name init) ""))
           "id" (InitialData.id init) error
      :: rest.
Proof.
  intros p HCL Hu Hrej.
  assert (Hcountry : Form.country (mount p) = "CL").
  { unfold mount, chain. cbn. rewrite HCL. reflexivity. }
  pose proof (addressData_CL (mount p) user Hcountry) as Hd.
  pose proof (submit_edit p (mount p) w user _ init Hu Hrej Hd eq_refl) as Hrun.
  cbv zeta in Hrun.
  assert (Hrec : AddressData.mk (Form.label (mount p)) (Form.street (mount p))
                   (Form.city (mount p)) (VStr (Form.region (mount p)))
                   (Form.zipCode (mount p)) (Form.country (mount p))
                   (Form.isDefault (mount p)) (User.id user) (Form.category (mount p))
                   (Form.email (mount p)) (Form.phone (mount p))
                   (Form.identification (mount p)) (Form.fullName (mount p)) =
                 AddressData.mk (InitialData.label init) (InitialData.street init)
                   (InitialData.city init) (VStr (InitialData.state init))
                   (InitialData.zip_code init) "CL" (InitialData.is_default init)
                   (User.id user) (InitialData.category init)
                   (or_str (InitialData.email init) "")
                   (or_str (InitialData.phone init) "")
                   (or_str (InitialData.identification init) "")
                   (or_str (InitialData.full_name init) "")).
  { rewrite Hcountry. unfold mount, chain, chain_optional.
    cbn -[or_str String.eqb]. rewrite !or_str_same. reflexivity. }
  rewrite Hrec in Hrun.
  match type of Hrun with
  | match ?e with _ => _ end => destruct e as [err |] eqn:Hans
  end; destruct Hrun as [_ Hrun]; rewrite Hrun; cbn; eexists _, _; reflexivity.
Qed.

Lemma edit_untouched_round_trip_witness :
  InitialData.country Scenario.stored = "CL" /\
  auth_user Scenario.online = Some Scenario.user /\
  @identifier_rejected spec_format_rut (mount Scenario.edit) = false /\
  exists error rest,
    trace (snd (@submit spec_format_rut Scenario.edit (mount Scenario.edit)
                  Scenario.online)) =
      PreventDefault :: AuthGetUser (Some Scenario.user)
      :: Update "addresses"
           (AddressData.mk "Oficina" "Av. Apoquindo 4501" "Las Condes"
              (VStr "Metropolitana") "7550000" "CL" false "user-2" trabajo
              "" "+56 2 2345 6789" "" "Luis Rojas")
           "id" "addr-9" error
      :: rest.
Proof.
  split; [reflexivity |]. split; [reflexivity |]. split; [reflexivity |].
  exact (@edit_untouched_round_trip spec_format_rut Scenario.stored Scenario.online
           Scenario.user eq_refl eq_refl eq_refl).
Defined.

(** ** The mounted component over time *)

Lemma react_press {lib : FormatRut} (p : Props) (c : Component) :
  react p PressSubmit c =
    if Form.loading (live c) then c
    else mkComponent (Form.setLoading true (live c)) (in_flight c ++ [live c])
           (log c ++ [PreventDefault]).
Proof.
  cbn [react submit_button disabled]. rewrite sync_raises_loading. reflexivity.
Qed.

Lemma react_answers {lib : FormatRut} (p : Props) (w : World) (c : Component) :
  react p (Answers w) c =
    match in_flight c with
    | [] => c
    | g :: rest =>
        mkComponent (Form.setLoading false (live c)) rest
          (log c ++ submission_events p g w)
    end.
Proof.
  cbn [react]. destruct (in_flight c) as [| g rest]; [reflexivity |].
  rewrite async_frame. reflexivity.
Qed.

(** An edit touches neither the flag, nor the pending submissions, nor the
    trace. *)
Lemma react_edit {lib : FormatRut} (p : Props) (i : Input) (c : Component) :
  is_edit i = true ->
  Form.loading (live (react p i c)) = Form.loading (live c) /\
  in_flight (react p i c) = in_flight c /\
  log (react p i c) = log c.
Proof.
  destruct i; intros Hi; try discriminate Hi; repeat split; reflexivity.
Qed.

Lemma continue_edits {lib : FormatRut} (p : Props) (edits : list Input) (c : Component) :
  forallb is_edit edits = true ->
  Form.loading (live (continue p edits c)) = Form.loading (live c) /\
  in_flight (continue p edits c) = in_flight c /\
  log (continue p edits c) = log c.
Proof.
  revert c. induction edits as [| i rest IH]; intros c Hall; cbn [continue fold_left].
  - repeat split; reflexivity.
  - cbn [forallb] in Hall. apply andb_true_iff in Hall. destruct Hall as [Hi Hrest].
    destruct (react_edit p i c Hi) as (Hl & Hf & Hg).
    destruct (IH (react p i c) Hrest) as (Hl' & Hf' & Hg').
    unfold continue in Hl', Hf', Hg'.
    rewrite Hl', Hf', Hg'. repeat split; assumption.
Qed.

(** An invariant of the component that holds when it mounts and that
    every input keeps, holds after any sequence of inputs. *)
Lemma run_invariant {lib : FormatRut} (p : Props) (Inv : Component -> Prop) :
  Inv (start p) ->
  (forall i c, Inv c -> Inv (react p i c)) ->
  forall inputs, Inv (run p inputs).
Proof.
  intros Hstart Hstep inputs. unfold run.
  generalize dependent (start p).
  induction inputs as [| i rest IH]; intros c Hc; cbn [fold_left].
  - exact Hc.
  - apply IH. apply Hstep. exact Hc.
Qed.

(** Every event of the trace satisfies [P] as soon as the dispatch event
    does and every event a submission adds does. *)
Lemma run_log_Forall {lib : FormatRut} (p : Props) (P : Event -> Prop) :
  P PreventDefault ->
  (forall g w, Forall P (submission_events p g w)) ->
  forall inputs, Forall P (log (run p inputs)).
Proof.
  intros Hpd Hsub.
  apply (run_invariant p (fun c => Forall P (log c))); [constructor |].
  intros i c Hc.
  destruct (is_edit i) eqn:Hi.
  - destruct (react_edit p i c Hi) as (_ & _ & Hlog). rewrite Hlog. exact Hc.
  - destruct i; try discriminate Hi.
    + rewrite react_press. destruct (Form.loading (live c)); [exact Hc |].
      cbn [log]. apply Forall_app. split; [exact Hc | constructor; [exact Hpd | constructor]].
    + rewrite react_answers. destruct (in_flight c) as [| g rest]; [exact Hc |].
      cbn [log]. apply Forall_app. split; [exact Hc | apply Hsub].
Qed.

Lemma highlighted_is_selected (f : Form.t) :
  map key (filter highlighted (category_buttons f)) = [Form.selectedCategory f].
Proof.
  unfold category_buttons. destruct (Form.selectedCategory f); reflexivity.
Qed.

(** X8: whatever the user does, the highlighted category is the stored
    one: exactly one category button is drawn in the default variant, and
    it is the button of the category a submission would send. *)
Theorem one_category_highlighted {lib : FormatRut} (p : Props) (inputs : list Input) :
  let f := live (run p inputs) in
  Form.selectedCategory f = Form.category f /\
  map key (filter highlighted (category_buttons f)) = [Form.category f].
Proof.
  cbv zeta.
  assert (Hagree : Form.selectedCategory (live (run p inputs)) =
                   Form.category (live (run p inputs))).
  { apply (run_invariant p
             (fun c => Form.selectedCategory (live c) = Form.category (live c)));
      [reflexivity |].
    intros i c Hc. destruct i; try exact Hc; try reflexivity.
    - rewrite react_press. destruct (Form.loading (live c)); exact Hc.
    - rewrite react_answers. destruct (in_flight c); exact Hc. }
  split; [exact Hagree |].
  rewrite <- Hagree. apply highlighted_is_selected.
Qed.

(** X9: the props of the render a submission is dispatched from decide
    its persistence call, whatever the outcome.  Without a pre-fill record
    the submission never calls update, and an insert it makes puts one row
    into addresses; with one it never calls insert, and an update it makes
    is on addresses, matched on the id of that record. *)
Theorem mode_decides_persistence_call {lib : FormatRut}
    (p : Props) (f : Form.t) (w : World) (ev : Event) :
  In ev (trace (snd (submit p f w))) ->
  match initialData p with
  | None =>
      is_update ev = false /\
      (forall table rows error,
         ev = Insert table rows error -> table = "addresses" /\ length rows = 1)
  | Some init =>
      is_insert ev = false /\
      (forall table patch column value error,
         ev = Update table patch column value error ->
         table = "addresses" /\ column = "id" /\ value = InitialData.id init)
  end.
Proof.
  rewrite submit_trace. intros Hin.
  destruct Hin as [<- | Hin];
    [destruct (initialData p); split; try reflexivity; intros; discriminate |].
  submission_shapes p f w; rewrite Hev in Hin;
    destruct (onSuccess_throws w); cbn in Hin;
    repeat (destruct Hin as [<- | Hin];
            [try (destruct (initialData p); split;
                  [reflexivity | intros; discriminate]) |]);
    try contradiction;
    unfold persistence_call; destruct (initialData p) as [init |];
    (split; [reflexivity |]); intros; try discriminate;
    match goal with
    | Heq : _ = _ |- _ => injection Heq; intros; subst; repeat split; reflexivity
    end.
Qed.

Lemma mode_decides_persistence_call_witness :
  let ev := Update "addresses"
              (AddressData.mk "Oficina" "Av. Apoquindo 4501" "Las Condes"
                 (VStr "Metropolitana") "7550000" "CL" false "user-2" trabajo
                 "" "+56 2 2345 6789" "" "Luis Rojas")
              "id" "addr-9" None in
  In ev (trace (snd (@submit spec_format_rut Scenario.edit (mount Scenario.edit)
                       Scenario.online))) /\
  is_insert ev = false /\
  (forall table patch column value error,
     ev = Update table patch column value error ->
     table = "addresses" /\ column = "id" /\ value = "addr-9").
Proof.
  cbv zeta.
  assert (Hin : In (Update "addresses"
                      (AddressData.mk "Oficina" "Av. Apoquindo 4501" "Las Condes"
                         (VStr "Metropolitana") "7550000" "CL" false "user-2" trabajo
                         "" "+56 2 2345 6789" "" "Luis Rojas")
                      "id" "addr-9" None)
                   (trace (snd (@submit spec_format_rut Scenario.edit
                                  (mount Scenario.edit) Scenario.online)))).
  { right. right. left. reflexivity. }
  split; [exact Hin |].
  exact (@mode_decides_persistence_call spec_format_rut Scenario.edit _ _ _ Hin).
Defined.

(** X10: over any sequence of inputs and answers, every record the
    component hands to the persistence API has country CL and, as its
    state, the text of the region hook: an address of another country is
    never written. *)
Theorem only_CL_records_written {lib : FormatRut}
    (p : Props) (inputs : list Input) (ev : Event) (r : AddressData.t) :
  In ev (log (run p inputs)) ->
  In r (written ev) ->
  AddressData.country r = "CL" /\
  exists region, AddressData.state r = VStr region.
Proof.
  intros Hin. revert r. revert ev Hin.
  apply (proj1 (Forall_forall
                  (fun ev => forall r, In r (written ev) ->
                     AddressData.country r = "CL" /\
                     exists region, AddressData.state r = VStr region)
                  (log (run p inputs)))).
  apply run_log_Forall.
  - intros r [].
  - intros g w. apply Forall_forall. intros ev Hin r Hr.
    submission_shapes p g w; rewrite Hev in Hin;
      destruct (onSuccess_throws w); cbn in Hin;
      repeat (destruct Hin as [<- | Hin]; [try contradiction Hr |]);
      try contradiction;
      destruct (persistence_call_is_persistence p w data) as (_ & _ & _ & _ & _ & Hw);
      rewrite Hw in Hr; destruct Hr as [<- | []];
      pose proof (addressData_inr g user data Hd) as HCL;
      rewrite (addressData_entered g user data Hd); cbn;
      (split; [exact HCL | eexists; reflexivity]).
Qed.

Lemma only_CL_records_written_witness :
  let r := AddressData.mk "Oficina" "Av. Apoquindo 4501" "Las Condes"
             (VStr "Metropolitana") "7550000" "CL" false "user-2" trabajo
             "" "+56 2 2345 6789" "" "Luis Rojas" in
  let ev := Update "addresses" r "id" "addr-9" None in
  In ev (log (@run spec_format_rut Scenario.edit [PressSubmit; Answers Scenario.online])) /\
  In r (written ev) /\
  AddressData.country r = "CL" /\
  exists region, AddressData.state r = VStr region.
Proof.
  cbv zeta.
  assert (Hin : In (Update "addresses"
                      (AddressData.mk "Oficina" "Av. Apoquindo 4501" "Las Condes"
                         (VStr "Metropolitana") "7550000" "CL" false "user-2" trabajo
                         "" "+56 2 2345 6789" "" "Luis Rojas")
                      "id" "addr-9" None)
                   (log (@run spec_format_rut Scenario.edit
                           [PressSubmit; Answers Scenario.online]))).
  { right. right. left. reflexivity. }
  split; [exact Hin |]. split; [left; reflexivity |].
  exact (@only_CL_records_written spec_format_rut Scenario.edit _ _ _ Hin
           (or_introl eq_refl)).
Defined.

(** X11: the trace never holds more than the user asked for.  After any
    sequence of inputs and answers, persistence calls do not outnumber
    dispatched submissions, calls of the completion callback do not
    outnumber persistence calls, and notifications do not outnumber
    dispatched submissions plus calls of the callback. *)
Theorem trace_bounded_by_dispatches {lib : FormatRut} (p : Props) (inputs : list Input) :
  let c := run p inputs in
  count is_persistence (log c) <= count is_preventDefault (log c) /\
  count is_onSuccess (log c) <= count is_persistence (log c) /\
  count is_toast (log c) <= count is_preventDefault (log c) + count is_onSuccess (log c).
Proof.
  cbv zeta.
  assert (Hinv :
    count is_persistence (log (run p inputs)) + length (in_flight (run p inputs))
      <= count is_preventDefault (log (run p inputs)) /\
    count is_onSuccess (log (run p inputs)) <= count is_persistence (log (run p inputs)) /\
    count is_toast (log (run p inputs)) + length (in_flight (run p inputs))
      <= count is_preventDefault (log (run p inputs))
         + count is_onSuccess (log (run p inputs))).
  { apply (run_invariant p
             (fun c =>
                count is_persistence (log c) + length (in_flight c)
                  <= count is_preventDefault (log c) /\
                count is_onSuccess (log c) <= count is_persistence (log c) /\
                count is_toast (log c) + length (in_flight c)
                  <= count is_preventDefault (log c) + count is_onSuccess (log c))).
    - cbn. repeat split; lia.
    - intros i c (Hp & Hs & Ht).
      destruct (is_edit i) eqn:Hi.
      + destruct (react_edit p i c Hi) as (_ & Hfl & Hlog). rewrite Hfl, Hlog.
        repeat split; assumption.
      + destruct i; try discriminate Hi.
        * rewrite react_press. destruct (Form.loading (live c));
            [repeat split; assumption |].
          cbn [log in_flight]. rewrite !count_app, length_app. cbn. repeat split; lia.
        * rewrite react_answers. destruct (in_flight c) as [| g rest] eqn:Hfl;
            [rewrite Hfl; repeat split; assumption |].
          cbn [log in_flight]. rewrite !count_app.
          pose proof (submission_events_counts p g w) as (E1 & E2 & E3 & E4 & E5).
          cbn [length] in Hp, Ht.
          destruct (onSuccess_throws w); repeat split; lia. }
  destruct Hinv as (Hp & Hs & Ht). repeat split; lia.
Qed.

(** X12: a submission sends the values of the render it was dispatched
    from.  What the user edits while it is in flight is not part of what
    it sends, stays in the form when the answers arrive, and the only
    hook the arrival changes is the flag, which goes down. *)
Theorem in_flight_edits_not_sent {lib : FormatRut}
    (p : Props) (c : Component) (edits : list Input) (w : World) :
  Form.loading (live c) = false ->
  in_flight c = [] ->
  forallb is_edit edits = true ->
  let edited := continue p edits (react p PressSubmit c) in
  let settled := react p (Answers w) edited in
  phase (live edited) = submitting /\
  log settled = log c ++ PreventDefault :: submission_events p (live c) w /\
  live settled = Form.setLoading false (live edited) /\
  in_flight settled = [].
Proof.
  intros Hidle Hnone Hedits. cbv zeta.
  assert (Hpress : react p PressSubmit c =
                   mkComponent (Form.setLoading true (live c)) [live c]
                     (log c ++ [PreventDefault])).
  { rewrite react_press, Hidle, Hnone. reflexivity. }
  rewrite Hpress.
  destruct (continue_edits p edits
              (mkComponent (Form.setLoading true (live c)) [live c]
                 (log c ++ [PreventDefault])) Hedits) as (Hl & Hfl & Hlog).
  cbn [live in_flight log] in Hl, Hfl, Hlog.
  rewrite react_answers, Hfl. cbn [log live in_flight].
  unfold phase. rewrite Hl, Hlog, <- app_assoc. repeat split; reflexivity.
Qed.

Lemma in_flight_edits_not_sent_witness :
  let c := start Scenario.edit in
  Form.loading (live c) = false /\
  in_flight c = [] /\
  forallb is_edit Scenario.typing = true /\
  let edited :=
    @continue spec_format_rut Scenario.edit Scenario.typing
      (@react spec_format_rut Scenario.edit PressSubmit c) in
  let settled := @react spec_format_rut Scenario.edit (Answers Scenario.online) edited in
  phase (live edited) = submitting /\
  log settled =
    log c ++ PreventDefault
          :: @submission_events spec_format_rut Scenario.edit (live c) Scenario.online /\
  live settled = Form.setLoading false (live edited) /\
  in_flight settled = [].
Proof.
  cbv zeta.
  split; [reflexivity |]. split; [reflexivity |]. split; [reflexivity |].
  exact (@in_flight_edits_not_sent spec_format_rut Scenario.edit (start Scenario.edit)
           Scenario.typing Scenario.online eq_refl eq_refl eq_refl).
Defined.

(** ** The filter of the identification input *)

Lemma rut_input_char_In (ch : ascii) :
  rut_input_char ch = true <-> In ch rut_input_alphabet.
Proof.
  rewrite rut_input_char_alphabet, existsb_exists. split.
  - intros [x [Hin Heq]]. apply Ascii.eqb_eq in Heq. subst x. exact Hin.
  - intros Hin. exists ch. split; [exact Hin | apply Ascii.eqb_refl].
Qed.

Lemma keep_fixed (q : ascii -> bool) (s : string) :
  (forall ch, In ch (list_ascii_of_string s) -> q ch = true) -> keep q s = s.
Proof.
  induction s as [| c rest IH]; intros Hall; cbn; [reflexivity |].
  rewrite (Hall c (or_introl eq_refl)). f_equal.
  apply IH. intros ch Hin. apply Hall. right. exact Hin.
Qed.

Lemma keep_In (q : ascii -> bool) (s : string) (ch : ascii) :
  In ch (list_ascii_of_string (keep q s)) -> q ch = true.
Proof.
  rewrite keep_filter, filter_In. intros [_ Hq]. exact Hq.
Qed.

Lemma keep_app (q : ascii -> bool) (a b : string) :
  keep q (a ++ b) = (keep q a ++ keep q b)%string.
Proof.
  induction a as [| c rest IH]; cbn; [reflexivity |].
  rewrite IH. destruct (q c); reflexivity.
Qed.

Lemma keep_length (q : ascii -> bool) (s : string) :
  String.length (keep q s) <= String.length s.
Proof.
  induction s as [| c rest IH]; cbn; [lia |].
  destruct (q c); cbn; lia.
Qed.

(** X13: the filter in front of the formatter is a projection onto the
    strings over digits, k, K and the hyphen: its result holds only those
    characters, a string that holds only those characters passes through
    unchanged, and filtering twice is filtering once.  It works character
    by character, so it distributes over concatenation and never
    lengthens its input. *)
Theorem strip_rut_input_projection :
  (forall raw ch,
     In ch (list_ascii_of_string (strip_rut_input raw)) -> In ch rut_input_alphabet) /\
  (forall raw,
     (forall ch, In ch (list_ascii_of_string raw) -> In ch rut_input_alphabet) ->
     strip_rut_input raw = raw) /\
  (forall raw, strip_rut_input (strip_rut_input raw) = strip_rut_input raw) /\
  (forall a b,
     strip_rut_input (a ++ b) = (strip_rut_input a ++ strip_rut_input b)%string) /\
  (forall raw, String.length (strip_rut_input raw) <= String.length raw).
Proof.
  unfold strip_rut_input.
  split.
  { intros raw ch Hin. apply rut_input_char_In. exact (keep_In _ _ _ Hin). }
  split.
  { intros raw Hall. apply keep_fixed. intros ch Hin.
    apply rut_input_char_In. apply Hall. exact Hin. }
  split.
  { intros raw. apply keep_fixed. intros ch Hin. exact (keep_In _ _ _ Hin). }
  split; [apply keep_app | apply keep_length].
Qed.

Lemma setIdentification_same (f : Form.t) :
  Form.setIdentification (Form.identification f) f = f.
Proof. destruct f; reflexivity. Qed.

(** X14: if the formatter only outputs digits, k, K and hyphens and is
    idempotent, the change handler is stable on what it stored: a change
    event that carries the stored identification back leaves every hook
    as it is. *)
Theorem identification_change_stable {lib : FormatRut} (raw : string) (f : Form.t) :
  (forall x, strip_rut_input (formatRUT x) = formatRUT x) ->
  (forall x, formatRUT (formatRUT x) = formatRUT x) ->
  let f' := handleIdentificationChange raw f in
  handleIdentificationChange (Form.identification f') f' = f'.
Proof.
  intros Hclosed Hidem f'.
  unfold handleIdentificationChange at 1.
  assert (Hid : Form.identification f' = formatRUT (strip_rut_input raw)) by reflexivity.
  rewrite Hid at 1. rewrite Hclosed, Hidem, <- Hid.
  apply setIdentification_same.
Qed.

Lemma spec_formatRUT_closed (x : string) :
  strip_rut_input (RutSpec.formatRUT x) = RutSpec.formatRUT x.
Proof.
  unfold strip_rut_input, RutSpec.formatRUT. apply keep_fixed.
  pose proof (RutSpecFacts.keep_all_chars RutSpec.rut_char x) as Hall.
  induction (keep RutSpec.rut_char x) as [| c rest IH]; intros ch Hin; [contradiction Hin |].
  cbn [RutSpec.all_chars] in Hall. apply andb_true_iff in Hall. destruct Hall as [Hc Hrest].
  assert (Hcin : rut_input_char c = true).
  { revert Hc. clear. destruct c as [[] [] [] [] [] [] [] []]; cbn; intros H;
      first [reflexivity | discriminate H]. }
  destruct rest as [| c' rest'].
  - cbn in Hin. destruct Hin as [<- | [<- | []]]; [reflexivity | exact Hcin].
  - change (RutSpec.hyphenate (String c (String c' rest')))
      with (String c (RutSpec.hyphenate (String c' rest'))) in Hin.
    cbn [list_ascii_of_string] in Hin. destruct Hin as [<- | Hin]; [exact Hcin |].
    apply IH; assumption.
Qed.

Lemma spec_formatRUT_twice (x : string) :
  RutSpec.formatRUT (RutSpec.formatRUT x) = RutSpec.formatRUT x.
Proof.
  unfold RutSpec.formatRUT at 1. rewrite RutSpecFacts.clean_formatRUT. reflexivity.
Qed.

Lemma identification_change_stable_witness :
  (forall x, strip_rut_input (@formatRUT spec_format_rut x) = @formatRUT spec_format_rut x) /\
  (forall x, @formatRUT spec_format_rut (@formatRUT spec_format_rut x) =
             @formatRUT spec_format_rut x) /\
  let f' := @handleIdentificationChange spec_format_rut "12.345.678-5" Sample.form in
  Form.identification f' = "12345678-5" /\
  @handleIdentificationChange spec_format_rut (Form.identification f') f' = f'.
Proof.
  split; [exact spec_formatRUT_closed |].
  split; [exact spec_formatRUT_twice |].
  split; [reflexivity |].
  exact (@identification_change_stable spec_format_rut "12.345.678-5" Sample.form
           spec_formatRUT_closed spec_formatRUT_twice).
Defined.

(** ** The region control *)

Lemma region_control_other (f : Form.t) :
  Form.country f <> "CL" -> region_control f = inl (ReferenceError "state").
Proof.
  intros Hne. unfold region_control, ident.
  destruct (String.eqb_spec (Form.country f) "CL") as [E | _]; [contradiction |].
  rewrite state_unbound. reflexivity.
Qed.

Lemma region_control_CL (f : Form.t) :
  Form.country f = "CL" -> region_control f = inr (RegionSelect (Form.region f)).
Proof.
  intros HCL. unfold region_control. rewrite HCL. reflexivity.
Qed.

Lemma continue_country {lib : FormatRut} (p : Props) (inputs : list Input) (c : Component) :
  (forall v, In (SelectCountry v) inputs -> v = "CL") ->
  Form.country (live c) = "CL" ->
  Form.country (live (continue p inputs c)) = "CL".
Proof.
  revert c. induction inputs as [| i rest IH]; intros c Hsel Hc; cbn [continue fold_left];
    [exact Hc |].
  apply IH; [intros v Hv; apply Hsel; right; exact Hv |].
  assert (Hi : forall v, i = SelectCountry v -> v = "CL")
    by (intros v ->; apply Hsel; left; reflexivity).
  destruct i; try exact Hc.
  - cbn. apply Hi. reflexivity.
  - rewrite react_press. destruct (Form.loading (live c)); exact Hc.
  - rewrite react_answers. destruct (in_flight c); exact Hc.
Qed.

(** X15: the region control renders, as a select bound to the region
    hook, exactly when the country is CL.  A form opened without a
    pre-fill record keeps rendering it as long as the user picks no other
    country; picking any other country, or opening a stored address of
    another country, makes the render throw on the unbound [state]. *)
Theorem region_control_renders_iff_CL {lib : FormatRut} :
  (forall f,
     region_control f = inr (RegionSelect (Form.region f)) <-> Form.country f = "CL") /\
  (forall inputs,
     (forall v, In (SelectCountry v) inputs -> v = "CL") ->
     let f := live (run (mkProps None) inputs) in
     region_control f = inr (RegionSelect (Form.region f))) /\
  (forall p c v,
     v <> "CL" ->
     region_control (live (react p (SelectCountry v) c)) = inl (ReferenceError "state")) /\
  (forall p init,
     initialData p = Some init ->
     InitialData.country init <> "" ->
     InitialData.country init <> "CL" ->
     region_control (mount p) = inl (ReferenceError "state")).
Proof.
  split.
  { intros f. split; [| apply region_control_CL].
    intros Hr. destruct (String.eqb_spec (Form.country f) "CL") as [E | Hne]; [exact E |].
    rewrite (region_control_other f Hne) in Hr. discriminate Hr. }
  split.
  { intros inputs Hsel f. apply region_control_CL.
    apply (continue_country (mkProps None) inputs (start (mkProps None)) Hsel).
    reflexivity. }
  split.
  { intros p c v Hv. apply region_control_other. exact Hv. }
  intros p init Hp Hne HCL. apply region_control_other.
  unfold mount, chain. rewrite Hp. cbn -[or_str String.eqb]. unfold or_str.
  destruct (String.eqb_spec (InitialData.country init) "") as [E | _];
    [contradiction | exact HCL].
Qed.

(** ** Retrying *)

Lemma setLoading_idle (f : Form.t) :
  Form.loading f = false -> Form.setLoading false (Form.setLoading true f) = f.
Proof. destruct f; cbn; intros ->; reflexivity. Qed.

(** X16: a completed submission, whatever its outcome, leaves the idle
    form exactly as it was before the submit control was pressed, with
    the control enabled again: the user can retry, and the retry is
    dispatched from the same values. *)
Theorem submission_leaves_form_ready {lib : FormatRut}
    (p : Props) (c : Component) (w w' : World) :
  Form.loading (live c) = false ->
  in_flight c = [] ->
  let settled := react p (Answers w) (react p PressSubmit c) in
  live settled = live c /\
  in_flight settled = [] /\
  disabled (submit_button p (live settled)) = false /\
  log (react p (Answers w') (react p PressSubmit settled)) =
    log c ++ (PreventDefault :: submission_events p (live c) w)
          ++ (PreventDefault :: submission_events p (live c) w').
Proof.
  intros Hidle Hnone. cbv zeta.
  assert (Hsettled : react p (Answers w) (react p PressSubmit c) =
                     mkComponent (live c) []
                       (log c ++ PreventDefault :: submission_events p (live c) w)).
  { rewrite react_press, Hidle, react_answers, Hnone. cbn [in_flight live log app].
    rewrite (setLoading_idle (live c) Hidle), <- app_assoc. reflexivity. }
  rewrite Hsettled. cbn [live in_flight log submit_button disabled].
  split; [reflexivity |]. split; [reflexivity |]. split; [exact Hidle |].
  rewrite react_press. cbn [live in_flight log]. rewrite Hidle.
  rewrite react_answers. cbn [in_flight live log app].
  rewrite <- !app_assoc. reflexivity.
Qed.

Lemma submission_leaves_form_ready_witness :
  let c := @run spec_format_rut Sample.create Scenario.filling in
  Form.loading (live c) = false /\
  in_flight c = [] /\
  required_filled (live c) = true /\
  let settled :=
    @react spec_format_rut Sample.create (Answers Sample.failing)
      (@react spec_format_rut Sample.create PressSubmit c) in
  live settled =
    Form.mk false "Ana Soto" "12345678-5" "ana@example.com" "" "CL" "Metropolitana"
      "Santiago" "" "Av. Providencia 1234" "Casa" true casa casa /\
  live settled = live c /\
  in_flight settled = [] /\
  disabled (submit_button Sample.create (live settled)) = false /\
  log (@react spec_format_rut Sample.create (Answers Sample.online)
         (@react spec_format_rut Sample.create PressSubmit settled)) =
    log c ++ (PreventDefault
                :: @submission_events spec_format_rut Sample.create (live c) Sample.failing)
          ++ (PreventDefault
                :: @submission_events spec_format_rut Sample.create (live c) Sample.online).
Proof.
  cbv zeta.
  assert (Hidle : Form.loading (live (@run spec_format_rut Sample.create Scenario.filling))
                  = false) by (vm_compute; reflexivity).
  assert (Hnone : in_flight (@run spec_format_rut Sample.create Scenario.filling) = [])
    by (vm_compute; reflexivity).
  split; [exact Hidle |]. split; [exact Hnone |].
  split; [vm_compute; reflexivity |].
  split; [vm_compute; reflexivity |].
  exact (@submission_leaves_form_ready spec_format_rut Sample.create
           (@run spec_format_rut Sample.create Scenario.filling)
           Sample.failing Sample.online Hidle Hnone).
Defined.

(** ** Countries other than CL *)

Lemma renders_iff_CL (f : Form.t) : renders f = true <-> Form.country f = "CL".
Proof.
  unfold renders. split.
  - destruct (String.eqb_spec (Form.country f) "CL") as [E | Hne]; [intros _; exact E |].
    rewrite (region_control_other f Hne). intros H. discriminate H.
  - intros HCL. rewrite (region_control_CL f HCL). reflexivity.
Qed.

(** What is in flight only changes when submit is pressed, which adds the
    hooks of the current render, and when answers arrive, which removes
    the oldest entry. *)
Lemma react_in_flight {lib : FormatRut} (p : Props) (i : Input) (c : Component)
    (Q : Form.t -> Prop) :
  Q (live c) -> Forall Q (in_flight c) -> Forall Q (in_flight (react p i c)).
Proof.
  intros Hlive Hfl.
  destruct (is_edit i) eqn:Hi.
  - destruct (react_edit p i c Hi) as (_ & Hsame & _). rewrite Hsame. exact Hfl.
  - destruct i; try discriminate Hi.
    + rewrite react_press. destruct (Form.loading (live c)); [exact Hfl |].
      cbn [in_flight]. apply Forall_app. split; [exact Hfl | constructor; [exact Hlive | constructor]].
    + rewrite react_answers. destruct (in_flight c) as [| g rest] eqn:Hc;
        [rewrite Hc; exact Hfl |].
      cbn [in_flight]. inversion Hfl; assumption.
Qed.

(** A mounted component shows CL, and every submission it has in flight
    was dispatched from a render that showed CL. *)
Lemma run_rendered_CL {lib : FormatRut} (p : Props) (inputs : list Input) (c : Component) :
  run_rendered p inputs = Some c ->
  Form.country (live c) = "CL" /\
  Forall (fun g => Form.country g = "CL") (in_flight c).
Proof.
  unfold run_rendered.
  assert (Hstart : forall c0, rendered (start p) = Some c0 ->
            Form.country (live c0) = "CL" /\
            Forall (fun g => Form.country g = "CL") (in_flight c0)).
  { unfold rendered. intros c0. destruct (renders (live (start p))) eqn:Hr; [| discriminate].
    intros [= <-]. split; [apply renders_iff_CL; exact Hr | constructor]. }
  revert c. generalize dependent (rendered (start p)).
  induction inputs as [| i rest IH]; intros m Hm c Hrun; cbn [fold_left] in Hrun.
  - apply Hm. exact Hrun.
  - apply (IH (react_rendered p i m)); [| exact Hrun].
    intros c1 Hstep. destruct m as [c0 |]; [| discriminate Hstep].
    destruct (Hm c0 eq_refl) as [Hlive Hfl].
    assert (Hkeep : forall c2, rendered (react p i c0) = Some c2 ->
              Form.country (live c2) = "CL" /\
              Forall (fun g => Form.country g = "CL") (in_flight c2)).
    { unfold rendered. intros c2.
      destruct (renders (live (react p i c0))) eqn:Hr; [| discriminate].
      intros [= <-]. split; [apply renders_iff_CL; exact Hr |].
      apply react_in_flight; assumption. }
    cbn [react_rendered] in Hstep.
    destruct i; try (apply Hkeep; exact Hstep).
    destruct (required_filled (live c0)); [apply Hkeep; exact Hstep |].
    injection Hstep as <-. split; assumption.
Qed.


